(** * lsst.display.ginga: the ginga back end of the afw display interface

    A shallow embedding of [python/lsst/display/ginga/ginga.py].

    Python objects that are shared and mutated (the viewer server, its
    viewers, their canvases) live in an explicit store, the [process];
    methods are state transformers that either return or raise.  Numbers
    that the module only passes around ([float(p) - 1], [math.degrees])
    are kept behind the [Numerics] interface, and the two libraries the
    module binds to (the afw region generator and the WCS object) are
    interfaces as well. *)

From Stdlib Require Import Ascii.
From stdpp Require Import base option list strings gmap pretty.

Local Open Scope string_scope.

(** ** Exceptions and results *)

Inductive exn : Type :=
  | NameError (name : string)
  | IndexError
  | ValueError
  | TypeError
  | AttributeError
  | RuntimeError (msg : string).

Inductive result (A : Type) : Type :=
  | Ok (a : A)
  | Raise (e : exn).
Arguments Ok {A} a.
Arguments Raise {A} e.

Definition raises {A} (r : result A) : bool :=
  match r with Ok _ => false | Raise _ => true end.

(** ** Plain Python values that reach the module as arguments *)

Inductive pyval : Type :=
  | VNone
  | VBool (b : bool)
  | VInt (z : Z)
  | VStr (s : string).

#[global] Instance pyval_eq_dec : EqDecision pyval.
Proof. solve_decision. Defined.

(** [bool(v)] *)
Definition truthy (v : pyval) : bool :=
  match v with
  | VNone => false
  | VBool b => b
  | VInt z => negb (Z.eqb z 0)
  | VStr s => negb (String.eqb s EmptyString)
  end.

(** [str(v)] *)
Definition py_str (v : pyval) : string :=
  match v with
  | VNone => "None"
  | VBool true => "True"
  | VBool false => "False"
  | VInt z => pretty z
  | VStr s => s
  end.

(** ** The [%] operator on the module's format strings

    The module formats with two templates only: one with two [%s]
    conversions and one with none.  A template is kept parsed. *)

Inductive piece : Type :=
  | Lit (s : string)
  | ConvS.

(** The right operand of [%]: a single value or a tuple of values. *)
Inductive operand : Type :=
  | One (v : pyval)
  | Tuple (vs : list pyval).

Fixpoint format_go (t : list piece) (args : list pyval) : result string :=
  match t with
  | [] =>
      match args with
      | [] => Ok EmptyString
      | _ :: _ => Raise TypeError      (* not all arguments converted *)
      end
  | Lit s :: t' =>
      match format_go t' args with
      | Ok r => Ok (s ++ r)
      | Raise e => Raise e
      end
  | ConvS :: t' =>
      match args with
      | [] => Raise TypeError          (* not enough arguments *)
      | v :: args' =>
          match format_go t' args' with
          | Ok r => Ok (py_str v ++ r)
          | Raise e => Raise e
          end
      end
  end.

(** [template % operand].  A value that is not a tuple counts as one
    argument (none of [pyval] is a mapping). *)
Definition py_format (t : list piece) (o : operand) : result string :=
  match o with
  | One v => format_go t [v]
  | Tuple vs => format_go t vs
  end.

(** [sep.join(l)] *)
Fixpoint join (sep : string) (l : list string) : string :=
  match l with
  | [] => EmptyString
  | [s] => s
  | s :: l' => s ++ sep ++ join sep l'
  end.

(** ** [str.split]

    A [str] is kept as its UTF-8 encoding, one byte per character of
    the Rocq string, so that a character of more than one byte is a run
    of bytes. *)

(** The one-byte whitespace of [str.split()]: tab to carriage return,
    the four separators 28 to 31, and the space. *)
Definition is_whitespace (c : Ascii.ascii) : bool :=
  let n := Ascii.nat_of_ascii c in
  (((9 <=? n) && (n <=? 13)) || ((28 <=? n) && (n <=? 32)))%nat.

(** The number of bytes of the whitespace character that [s] begins
    with, 0 when it begins with none.  Beside the one-byte ones these
    are U+0085 and U+00A0 (two bytes) and U+1680, U+2000 to U+200A,
    U+2028, U+2029, U+202F, U+205F and U+3000 (three bytes). *)
Definition whitespace_width (s : string) : nat :=
  match s with
  | EmptyString => 0
  | String c0 s1 =>
      if is_whitespace c0 then 1
      else
        let b0 := Ascii.nat_of_ascii c0 in
        match s1 with
        | EmptyString => 0
        | String c1 s2 =>
            let b1 := Ascii.nat_of_ascii c1 in
            if ((b0 =? 194) && ((b1 =? 133) || (b1 =? 160)))%nat then 2
            else
              match s2 with
              | EmptyString => 0
              | String c2 _ =>
                  let b2 := Ascii.nat_of_ascii c2 in
                  if ((b0 =? 225) && (b1 =? 154) && (b2 =? 128))%nat then 3
                  else if ((b0 =? 226) && (b1 =? 128)
                           && (((128 <=? b2) && (b2 <=? 138))
                               || (b2 =? 168) || (b2 =? 169)
                               || (b2 =? 175)))%nat then 3
                  else if ((b0 =? 226) && (b1 =? 129) && (b2 =? 159))%nat
                  then 3
                  else if ((b0 =? 227) && (b1 =? 128) && (b2 =? 128))%nat
                  then 3
                  else 0
              end
        end
  end.

(** [s.split()]: maximal runs of characters that are not whitespace.
    [skip] counts the bytes still to pass of a whitespace character
    that has begun. *)
Fixpoint split_go (skip : nat) (cur : option string) (s : string)
    : list string :=
  match s with
  | EmptyString =>
      match cur with Some w => [String.rev w] | None => [] end
  | String c s' =>
      match skip with
      | S k => split_go k cur s'
      | O =>
          match whitespace_width s with
          | S k =>
              match cur with
              | Some w => String.rev w :: split_go k None s'
              | None => split_go k None s'
              end
          | O => split_go 0 (Some (String c (default EmptyString cur))) s'
          end
      end
  end.

Definition split (s : string) : list string := split_go 0 None s.

(** [s.split(sep)] for a one-character separator: never empty. *)
Fixpoint split_on (sep : Ascii.ascii) (s : string) : list string :=
  match s with
  | EmptyString => [EmptyString]
  | String c s' =>
      if Ascii.eqb c sep then EmptyString :: split_on sep s'
      else
        match split_on sep s' with
        | w :: ws => String c w :: ws
        | [] => [String c EmptyString]
        end
  end.

(** [l.pop(0)]: the first element and the rest, [IndexError] when empty. *)
Definition pop0 {A} (l : list A) : result (A * list A) :=
  match l with
  | [] => Raise IndexError
  | x :: l' => Ok (x, l')
  end.

(** ** Numbers

    Pixel coordinates, sizes and angles are Python floats.  The module
    never looks inside them: it converts region arguments with
    [float(p)], subtracts the literal [1], and calls [math.degrees]. *)

Class Numerics (F : Type) : Type := {
  Angle : Type;                        (* afwGeom.Angle *)
  float_of_str : string → option F;    (* float(p); None: ValueError *)
  of_int : Z → F;                      (* an int literal used as a float *)
  fsub : F → F → F;                    (* x - y *)
  degrees : F → F;                     (* math.degrees *)
  asDegrees : Angle → F;               (* angle.asDegrees() *)
  times_degrees : F → Angle            (* x*afwGeom.degrees *)
}.

Section Ginga.

Context {F : Type} {numerics : Numerics F}.

(** [float(p)] *)
Definition float (p : string) : result F :=
  match float_of_str p with
  | Some x => Ok x
  | None => Raise ValueError
  end.

(** [[float(p) - 1 for p in args]] *)
Fixpoint floats_minus_1 (args : list string) : result (list F) :=
  match args with
  | [] => Ok []
  | p :: args' =>
      match float p with
      | Raise e => Raise e
      | Ok x =>
          match floats_minus_1 args' with
          | Raise e => Raise e
          | Ok xs => Ok (fsub x (of_int 1) :: xs)
          end
      end
  end.

(** ** Objects of the bound libraries *)

(** An afw WCS object, as far as the adaptor calls it.  [pixelToSky]
    takes the unpacked pixel position and yields the pair that the
    adaptor unpacks into [ra, dec]. *)
Record Wcs : Type := {
  pixelToSky : list F → result (Angle * Angle);
  skyToPixel : Angle → Angle → result (F * F)
}.

(** [afwGeom.ellipses.BaseCore] *)
Record BaseCore : Type := {
  getA : F;
  getB : F;
  getTheta : F
}.

(** The [symb] argument of [_dot]: an ellipse object or a string. *)
Inductive symbol : Type :=
  | SEllipse (e : BaseCore)
  | SStr (s : string).

(** An afw image or mask: what [getArray()] returns. *)
Record Image : Type := { getArray : list (list F) }.

(** [lsst.afw.display.ds9Regions.dot]: the region commands of a symbol. *)
Class Ds9Regions : Type :=
  ds9Regions_dot :
    symbol → F → F → F → string → option F → result (list string).

Context {regions : Ds9Regions}.

(** ** The coordinate adaptor *)

Record WcsAdaptorForGinga : Type := { _wcs : Wcs }.

(** ** The viewer library: drawing objects, viewers, servers *)

(** Objects made by the classes of [canvas.get_draw_class]. *)
Inductive prim : Type :=
  | Ellipse (x y xradius yradius rot_deg : F) (color : pyval)
  | Circle (x y radius : F) (color : pyval)
  | Line (coords : list F) (color : pyval)
  | Text (x y : F) (text : string) (color : pyval).

Record AstroImage : Type := {
  data_np : list (list F);
  wcs : option WcsAdaptorForGinga
}.

Inductive autocut : Type :=
  | AutocutZscale                      (* 'zscale', contrast=0.25 *)
  | AutocutMinmax.                     (* 'minmax' *)

(** The [min] and [max] arguments of [_scale]. *)
Inductive level : Type :=
  | LNum (x : F)
  | LName (s : string).

(** [l == name] for a string [name] *)
Definition level_is (l : level) (name : string) : bool :=
  match l with
  | LName s => String.eqb s name
  | LNum _ => false
  end.

Inductive levels : Type :=
  | AutoLevels
  | CutLevels (lo hi : level).

(** A viewer: its canvases (each the list of objects drawn on it, in
    drawing order), the image shown, and its display parameters. *)
Record viewer : Type := {
  canvases : list (list prim);
  image : option AstroImage;
  settings : gmap string pyval;
  opened : bool;
  color_map : option string;
  color_algorithm : option string;
  autocut_params : option autocut;
  cut : option levels;
  scale : option (F * F);
  pan : option (F * F)
}.

Definition new_viewer : viewer :=
  {| canvases := []; image := None; settings := ∅; opened := false;
     color_map := None; color_algorithm := None; autocut_params := None;
     cut := None; scale := None; pan := None |}.

(** A server made by [ipg.make_server]; viewers are kept by name. *)
Record server : Type := {
  host : string;
  port : Z;
  use_opencv : bool;
  running : bool;
  viewers : gmap string viewer
}.

(** ** The process *)

(** Values bound in the module's global namespace. *)
Inductive gval : Type :=
  | GNone
  | GFeature
  | GModule
  | GFunction
  | GClass
  | GServer (sid : nat)
  | GWcs (w : Wcs).

Definition gtruthy (v : gval) : bool :=
  match v with GNone => false | _ => true end.

Record process : Type := {
  globals : gmap string gval;          (* the module's namespace *)
  DisplayImpl_server : option nat;     (* class attribute DisplayImpl.server *)
  servers : list server;               (* server objects, by identity *)
  stdout : list string;                (* lines printed *)
  stderr : list string
}.

(** The names bound by the module's top-level statements.  The block
    that would bind [server] is under [if False:]. *)
Definition module_globals : gmap string gval :=
  let g : gmap string gval :=
    list_to_map
      [("absolute_import", GFeature); ("division", GFeature);
       ("print_function", GFeature);
       ("math", GModule); ("os", GModule); ("re", GModule);
       ("sys", GModule); ("time", GModule); ("ipg", GModule);
       ("interface", GModule); ("virtualDevice", GModule);
       ("ds9Regions", GModule); ("afwGeom", GModule);
       ("_maskTransparency", GNone);
       ("gingaVersion", GFunction)] in
  let g := if false then <["server" := GNone]> g else g in
  <["WcsAdaptorForGinga" := GClass]>
    (<["DisplayImpl" := GClass]>
       (<["GingaEvent" := GClass]> (<["initGinga" := GFunction]> g))).

(** The process right after the module is imported. *)
Definition module_loaded : process :=
  {| globals := module_globals; DisplayImpl_server := None; servers := [];
     stdout := []; stderr := [] |}.

(** ** Computations: a state transformer that returns or raises

    What a call did to the process before it raised stays done. *)

Definition M (A : Type) : Type := process → result A * process.

Definition ret {A} (a : A) : M A := λ st, (Ok a, st).

Definition raise {A} (e : exn) : M A := λ st, (Raise e, st).

Definition bind {A B} (m : M A) (k : A → M B) : M B :=
  λ st,
    match m st with
    | (Ok a, st') => k a st'
    | (Raise e, st') => (Raise e, st')
    end.

Definition lift {A} (r : result A) : M A := λ st, (r, st).

Definition modify (f : process → process) : M unit := λ st, (Ok tt, f st).

Notation "x <- m ;; k" := (bind m (λ x, k))
  (at level 100, m at next level, right associativity).
Notation "m ;;; k" := (bind m (λ _, k))
  (at level 100, right associativity).

(** [for x in l: body(x)] *)
Fixpoint for_each {A} (body : A → M unit) (l : list A) : M unit :=
  match l with
  | [] => ret tt
  | x :: l' => body x ;;; for_each body l'
  end.

(** *** Field updates *)

Definition set_globals (g : gmap string gval) (st : process) : process :=
  {| globals := g; DisplayImpl_server := DisplayImpl_server st;
     servers := servers st; stdout := stdout st; stderr := stderr st |}.

Definition set_DisplayImpl_server (o : option nat) (st : process) : process :=
  {| globals := globals st; DisplayImpl_server := o;
     servers := servers st; stdout := stdout st; stderr := stderr st |}.

Definition set_servers (l : list server) (st : process) : process :=
  {| globals := globals st; DisplayImpl_server := DisplayImpl_server st;
     servers := l; stdout := stdout st; stderr := stderr st |}.

Definition set_running (b : bool) (s : server) : server :=
  {| host := host s; port := port s; use_opencv := use_opencv s;
     running := b; viewers := viewers s |}.

Definition set_viewers (m : gmap string viewer) (s : server) : server :=
  {| host := host s; port := port s; use_opencv := use_opencv s;
     running := running s; viewers := m |}.

Definition set_canvases (cs : list (list prim)) (v : viewer) : viewer :=
  {| canvases := cs; image := image v; settings := settings v;
     opened := opened v; color_map := color_map v;
     color_algorithm := color_algorithm v;
     autocut_params := autocut_params v; cut := cut v;
     scale := scale v; pan := pan v |}.

Definition set_display (im : option AstroImage) (ss : gmap string pyval)
    (o : bool) (v : viewer) : viewer :=
  {| canvases := canvases v; image := im; settings := ss;
     opened := o; color_map := color_map v;
     color_algorithm := color_algorithm v;
     autocut_params := autocut_params v; cut := cut v;
     scale := scale v; pan := pan v |}.

Definition set_colors (cm alg : option string) (ac : option autocut)
    (lv : option levels) (v : viewer) : viewer :=
  {| canvases := canvases v; image := image v; settings := settings v;
     opened := opened v; color_map := cm; color_algorithm := alg;
     autocut_params := ac; cut := lv; scale := scale v; pan := pan v |}.

Definition set_view (sc pn : option (F * F)) (v : viewer) : viewer :=
  {| canvases := canvases v; image := image v; settings := settings v;
     opened := opened v; color_map := color_map v;
     color_algorithm := color_algorithm v;
     autocut_params := autocut_params v; cut := cut v;
     scale := sc; pan := pn |}.

(** *** Output *)

(** [print(line)] and [print(line, file=sys.stderr)] *)
Definition print (line : string) : M unit :=
  modify (λ st,
    {| globals := globals st; DisplayImpl_server := DisplayImpl_server st;
       servers := servers st; stdout := stdout st ++ [line];
       stderr := stderr st |}).

Definition print_stderr (line : string) : M unit :=
  modify (λ st,
    {| globals := globals st; DisplayImpl_server := DisplayImpl_server st;
       servers := servers st; stdout := stdout st;
       stderr := stderr st ++ [line] |}).

(** *** The viewer library *)

(** A reference to a viewer: its server and its name there. *)
Definition viewer_ref : Type := nat * string.

Definition lookup_viewer (d : viewer_ref) (st : process) : option viewer :=
  s ← servers st !! d.1; viewers s !! d.2.

Definition update_server (sid : nat) (f : server → server) : M unit :=
  modify (λ st, set_servers (alter f sid (servers st)) st).

Definition update_viewer (d : viewer_ref) (f : viewer → viewer) : M unit :=
  update_server d.1 (λ s, set_viewers (alter f d.2 (viewers s)) s).

(** [ipg.make_server(host=, port=, use_opencv=)]: a new server object,
    not yet running. *)
Definition make_server (h : string) (p : Z) (cv : bool) : M nat :=
  λ st,
    let s := {| host := h; port := p; use_opencv := cv;
                running := false; viewers := ∅ |} in
    (Ok (length (servers st)), set_servers (servers st ++ [s]) st).

(** [server.start(no_ioloop=)] and [server.stop()].  The start is that
    of a server whose host and port are free: the store does not say
    which ports are taken, and a start that finds its port taken (it
    would raise) is outside it. *)
Definition server_start (sid : nat) (no_ioloop : bool) : M unit :=
  update_server sid (set_running true).

Definition server_stop (sid : nat) : M unit :=
  update_server sid (set_running false).

(** [server.get_viewer(name)]: the viewer of that name, made on first
    request. *)
Definition server_get_viewer (sid : nat) (name : string) : M viewer_ref :=
  update_server sid (λ s,
    match viewers s !! name with
    | Some _ => s
    | None => set_viewers (<[name := new_viewer]> (viewers s)) s
    end) ;;;
  ret (sid, name).

(** [viewer.add_canvas()]: a new, empty canvas on the viewer. *)
Definition add_canvas (d : viewer_ref) : M nat :=
  λ st,
    let n := from_option (λ v, length (canvases v)) 0 (lookup_viewer d st) in
    (update_viewer d (λ v, set_canvases (canvases v ++ [[]]) v) ;;;
     ret n) st.

(** ** [initGinga]

    [global server]: the name is looked up in the module's namespace. *)
Definition initGinga (h : string) (p : Z) (cv no_ioloop : bool) : M unit :=
  λ st,
    match globals st !! "server" with
    | None => raise (NameError "server") st
    | Some v =>
        if negb (gtruthy v) then
          (sid <- make_server h p cv ;;
           modify (λ st', set_globals (<["server" := GServer sid]> (globals st')) st') ;;;
           server_start sid no_ioloop) st
        else ret tt st
    end.

(** ** [class DisplayImpl] *)

Record DisplayImpl : Type := {
  display : viewer_ref;                (* set by the base class constructor *)
  verbose : bool;
  _canvas : nat                        (* index among the viewer's canvases *)
}.

Definition canvas_types : list pyval := [VStr "jpeg"; VStr "png"].

Definition dquote : string := String (ascii_of_nat 34) EmptyString.

(** The message for an unknown [canvas_format]. *)
Definition unknown_format : list piece :=
  [Lit ("Unknown format " ++ dquote); ConvS;
   Lit (dquote ++ " (allowed: " ++ dquote); ConvS; Lit (dquote ++ ")")].

(** The first statement of the constructor,
    [if not DisplayImpl.server: ...], and the server that
    [DisplayImpl.server] names after it. *)
Definition the_server (h : string) (p : Z) (cv no_ioloop : bool) : M nat :=
  λ st,
    match DisplayImpl_server st with
    | Some sid => ret sid st
    | None =>
        (sid <- make_server h p cv ;;
         modify (set_DisplayImpl_server (Some sid)) ;;;
         server_start sid no_ioloop ;;;
         ret sid) st
    end.

(** The constructor's [if canvas_format in canvas_types: ... else: ...]
    on the viewer [d]. *)
Definition set_canvas_format (d : viewer_ref) (canvas_format : pyval) : M unit :=
  if bool_decide (canvas_format ∈ canvas_types) then
    update_viewer d (λ v,
      set_display (image v)
        (<["html5_canvas_format" := canvas_format]> (settings v))
        (opened v) v)
  else
    msg <- lift (py_format unknown_format
             (Tuple [canvas_format;
                     VStr (join (dquote ++ ", " ++ dquote)
                             (py_str <$> canvas_types))])) ;;
    print msg.

(** [DisplayImpl.__init__]; [frame] is [display.frame]. *)
Definition __init__ (frame : pyval) (verbose' open : bool)
    (h : string) (p : Z) (cv no_ioloop : bool) (canvas_format : pyval)
    : M DisplayImpl :=
  sid <- the_server h p cv no_ioloop ;;
  d <- server_get_viewer sid (py_str frame) ;;
  c <- add_canvas d ;;
  set_canvas_format d canvas_format ;;;
  (if open
   then update_viewer d (λ v, set_display (image v) (settings v) true v)
   else ret tt) ;;;
  ret {| display := d; verbose := false; _canvas := c |}.

(** The methods, with [self] the instance they are called on; a method
    that never reads [self] does not take it here. *)
Section methods.

Variable self : DisplayImpl.

Definition get_viewer : M viewer_ref := ret (display self).

Definition shutdown_server : M unit :=
  λ st,
    match DisplayImpl_server st with
    | Some sid =>
        (server_stop sid ;;; modify (set_DisplayImpl_server None)) st
    | None => ret tt st
    end.

(** [def show_color_bar(show=True)] has no [self] parameter: the
    instance arrives as [show], any further positional argument is one
    too many, and the body's [self] is a global name. *)
Definition show_color_bar (args : list pyval) : M unit :=
  λ st,
    match args with
    | _ :: _ => raise TypeError st
    | [] =>
        match globals st !! "self" with
        | None => raise (NameError "self") st
        | Some _ => raise AttributeError st
        end
    end.

(** [def show_pan_mark(show=True, color='red')], likewise. *)
Definition show_pan_mark (args : list pyval) : M unit :=
  λ st,
    match args with
    | _ :: _ :: _ => raise TypeError st
    | _ =>
        match globals st !! "self" with
        | None => raise (NameError "self") st
        | Some _ => raise AttributeError st
        end
    end.

Definition _close : M unit := ret tt.

Definition no_maskplanes : list piece :=
  [Lit "ginga is unable to set transparency for individual maskplanes"].

Definition _setMaskTransparency (transparency maskplane : pyval) : M unit :=
  if bool_decide (maskplane ≠ VNone) then
    msg <- lift (py_format no_maskplanes (One maskplane)) ;;
    print_stderr msg
  else ret tt.

Definition _getMaskTransparency (maskplane : pyval) : M pyval := ret VNone.

Definition _buffer (enable : bool) : M unit := ret tt.

Definition _flush : M unit := ret tt.

(** [self._canvas.delete_all_objects()] and [self._canvas.add(obj)] *)
Definition delete_all_objects : M unit :=
  update_viewer (display self) (λ v,
    set_canvases (alter (λ _, []) (_canvas self) (canvases v)) v).

Definition canvas_add (obj : prim) : M unit :=
  update_viewer (display self) (λ v,
    set_canvases (alter (λ objs : list prim, (objs ++ [obj])%list) (_canvas self) (canvases v)) v).

Definition _erase : M unit := delete_all_objects.

(** [_mtv]; [None] stands for an absent (false) [image] or [mask]. *)
Definition _mtv (image' mask : option Image) (wcs' : option Wcs)
    (title : string) : M unit :=
  _erase ;;;
  match image' with
  | Some im =>
      let astroImage :=
        {| data_np := getArray im;
           wcs := (λ w, {| _wcs := w |}) <$> wcs' |} in
      update_viewer (display self) (λ v,
        set_display (Some astroImage) (settings v) (opened v) v)
  | None => ret tt
  end ;;;
  match mask with
  | Some _ => print "Mask displays are not yet supported in Ginga"
  | None => ret tt
  end.

(** [Line] called with the coordinates unpacked and [color=ctype]: the
    viewer's line class takes the four positional arguments x1, y1,
    x2, y2; another number of them is a [TypeError]. *)
Definition make_Line (coords : list F) (ctype : pyval) : result prim :=
  match coords with
  | [x1; y1; x2; y2] => Ok (Line [x1; y1; x2; y2] ctype)
  | _ => Raise TypeError
  end.

(** One region command of the loop in [_dot]. *)
Definition dot_command (symb : string) (ctype : pyval) (ds9Cmd : string)
    : M unit :=
  tmp <- lift (pop0 (split_on "#" ds9Cmd)) ;;
  let cmd := split tmp.1 in
  let comment := match tmp.2 with c :: _ => c | [] => EmptyString end in
  match cmd with
  | [] => raise IndexError
  | cmd :: args =>
      if String.eqb cmd "line" then
        xs <- lift (floats_minus_1 args) ;;
        obj <- lift (make_Line xs ctype) ;;
        canvas_add obj
      else if String.eqb cmd "text" then
        xs <- lift (floats_minus_1 (take 2 args)) ;;
        match xs with
        | [x; y] => canvas_add (Text x y symb ctype)
        | _ => raise ValueError
        end
      else raise (RuntimeError ds9Cmd)
  end.

Definition _dot (symb : symbol) (c r size : F) (ctype : pyval)
    (fontFamily : string) (textAngle : option F) : M unit :=
  match symb with
  | SEllipse e =>
      canvas_add (Ellipse c r (getA e) (getB e) (degrees (getTheta e)) ctype)
  | SStr s =>
      if String.eqb s "o" then canvas_add (Circle c r size ctype)
      else
        cmds <- lift (ds9Regions_dot symb c r size "helvetica" None) ;;
        for_each (dot_command s ctype) cmds
  end.

Definition _drawLines (points : list (F * F)) (ctype : pyval) : M unit :=
  match points with
  | [] => raise IndexError
  | p0 :: rest =>
      (fix loop (p0 : F * F) (rest : list (F * F)) : M unit :=
         match rest with
         | [] => ret tt
         | p :: rest' =>
             canvas_add (Line [p0.1; p0.2; p.1; p.2] ctype) ;;;
             loop p rest'
         end) p0 rest
  end.

Definition ignoring_unit : list piece :=
  [Lit "ginga: ignoring scale unit "; ConvS].

Definition _scale (algorithm : string) (min max : level) (unit' : pyval)
    : M unit :=
  update_viewer (display self) (λ v,
    set_colors (Some "gray") (Some algorithm) (autocut_params v) (cut v) v) ;;;
  if level_is min "zscale" then
    update_viewer (display self) (λ v,
      set_colors (color_map v) (color_algorithm v)
        (Some AutocutZscale) (Some AutoLevels) v)
  else if level_is min "minmax" then
    update_viewer (display self) (λ v,
      set_colors (color_map v) (color_algorithm v)
        (Some AutocutMinmax) (Some AutoLevels) v)
  else
    (if truthy unit' then
       msg <- lift (py_format ignoring_unit (One unit')) ;;
       print msg
     else ret tt) ;;;
    update_viewer (display self) (λ v,
      set_colors (color_map v) (color_algorithm v) (autocut_params v)
        (Some (CutLevels min max)) v).

Definition _zoom (zoomfac : F) : M unit :=
  update_viewer (display self) (λ v,
    set_view (Some (zoomfac, zoomfac)) (pan v) v).

Definition _pan (colc rowc : F) : M unit :=
  update_viewer (display self) (λ v,
    set_view (scale v) (Some (colc, rowc)) v).

Definition XXX_getEvent : M unit := raise (RuntimeError "Write me").

End methods.

(** ** [class WcsAdaptorForGinga]

    The adaptor's methods return their result and the adaptor as the
    call left it. *)

Definition pixtoradec (self : WcsAdaptorForGinga) (idxs : list F)
    (coords : pyval) : result (F * F) * WcsAdaptorForGinga :=
  match pixelToSky (_wcs self) idxs with
  | Ok (ra, dec) => (Ok (asDegrees ra, asDegrees dec), self)
  | Raise e => (Raise e, self)
  end.

Definition pixtosystem (self : WcsAdaptorForGinga) (idxs : list F)
    (system coords : pyval) : result (F * F) * WcsAdaptorForGinga :=
  pixtoradec self idxs coords.

(** The body names [wcs], not [self._wcs]: a global of the module. *)
Definition radectopix (self : WcsAdaptorForGinga) (ra_deg dec_deg : F)
    (coords naxispath : pyval) (g : gmap string gval)
    : result (F * F) * WcsAdaptorForGinga :=
  match g !! "wcs" with
  | None => (Raise (NameError "wcs"), self)
  | Some (GWcs w) =>
      (skyToPixel w (times_degrees ra_deg) (times_degrees dec_deg), self)
  | Some _ => (Raise AttributeError, self)
  end.

(** ** Calls from the host framework *)

(** A call of a method of one [DisplayImpl], with its arguments. *)
Inductive method : Type :=
  | Get_viewer
  | Shutdown_server
  | Show_color_bar (args : list pyval)
  | Show_pan_mark (args : list pyval)
  | Close
  | SetMaskTransparency (transparency maskplane : pyval)
  | GetMaskTransparency (maskplane : pyval)
  | Mtv (image' mask : option Image) (wcs' : option Wcs) (title : string)
  | Buffer (enable : bool)
  | Flush
  | Erase
  | Dot (symb : symbol) (c r size : F) (ctype : pyval)
        (fontFamily : string) (textAngle : option F)
  | DrawLines (points : list (F * F)) (ctype : pyval)
  | Scale (algorithm : string) (min max : level) (unit' : pyval)
  | Zoom (zoomfac : F)
  | Pan (colc rowc : F)
  | GetEvent.

Definition call (self : DisplayImpl) (m : method) : M unit :=
  match m with
  | Get_viewer => get_viewer self ;;; ret tt
  | Shutdown_server => shutdown_server
  | Show_color_bar args => show_color_bar args
  | Show_pan_mark args => show_pan_mark args
  | Close => _close
  | SetMaskTransparency t mp => _setMaskTransparency t mp
  | GetMaskTransparency mp => _getMaskTransparency mp ;;; ret tt
  | Mtv im mk w t => _mtv self im mk w t
  | Buffer e => _buffer e
  | Flush => _flush
  | Erase => _erase self
  | Dot symb c r size ctype ff ta => _dot self symb c r size ctype ff ta
  | DrawLines ps ctype => _drawLines self ps ctype
  | Scale a lo hi u => _scale self a lo hi u
  | Zoom z => _zoom self z
  | Pan c r => _pan self c r
  | GetEvent => XXX_getEvent
  end.

(** A use of the server handle: a construction or a call of
    [initGinga]. *)
Inductive use : Type :=
  | Construct (frame : pyval) (verbose' open : bool)
      (h : string) (p : Z) (cv no_ioloop : bool) (canvas_format : pyval)
  | InitGinga (h : string) (p : Z) (cv no_ioloop : bool).

Definition use_step (st : process) (u : use) : process :=
  match u with
  | Construct frame vb op h p cv nio fmt =>
      (__init__ frame vb op h p cv nio fmt st).2
  | InitGinga h p cv nio => (initGinga h p cv nio st).2
  end.

Definition uses (us : list use) (st : process) : process :=
  foldl use_step st us.

(** What a process goes through: uses of the server handle and calls
    of methods on instances, in any order. *)
Inductive event : Type :=
  | Use (u : use)
  | Call (self : DisplayImpl) (m : method).

Definition event_step (st : process) (e : event) : process :=
  match e with
  | Use u => use_step st u
  | Call self m => (call self m st).2
  end.

Definition run (es : list event) (st : process) : process :=
  foldl event_step st es.

(** The methods that change what is on a canvas. *)
Definition is_drawing (m : method) : bool :=
  match m with
  | Mtv _ _ _ _ | Erase | Dot _ _ _ _ _ _ _ | DrawLines _ _ => true
  | _ => false
  end.

(** No running server of the store is on the port [p]. *)
Definition port_free (p : Z) (st : process) : Prop :=
  Forall (λ s, running s = true → port s ≠ p) (servers st).

(** Which servers run, in store order. *)
Definition flags (st : process) : list bool := running <$> servers st.

(** ** Observations *)

(** The objects on the canvas of a [DisplayImpl], in drawing order. *)
Definition objects (self : DisplayImpl) (st : process) : option (list prim) :=
  v ← lookup_viewer (display self) st; canvases v !! _canvas self.

(** How many canvases a viewer has. *)
Definition canvas_count (d : viewer_ref) (st : process) : nat :=
  from_option (λ v, length (canvases v)) 0 (lookup_viewer d st).

(** The image a viewer shows. *)
Definition shown (d : viewer_ref) (st : process) : option AstroImage :=
  v ← lookup_viewer d st; image v.

(** The display state: the server handle and the servers with their
    viewers. *)
Definition display_state (st : process) : option nat * list server :=
  (DisplayImpl_server st, servers st).

(** The line printed for a [canvas_format] that is not allowed. *)
Definition unknown_format_message (canvas_format : pyval) : string :=
  "Unknown format " ++ dquote ++ py_str canvas_format ++ dquote
  ++ " (allowed: " ++ dquote ++ "jpeg" ++ dquote ++ ", "
  ++ dquote ++ "png" ++ dquote ++ ")".

(** The servers that are running. *)
Definition running_servers (st : process) : list server :=
  filter (λ s, running s = true) (servers st).

(** The class attribute, when set, names a server of the store. *)
Definition wf (st : process) : Prop :=
  match DisplayImpl_server st with
  | Some sid => sid < length (servers st)
  | None => True
  end.

(** *** What the claims about [_dot] speak of *)

(** The words of a region command before its comment. *)
Definition command_words (ds9Cmd : string) : list string :=
  split (default EmptyString (head (split_on "#" ds9Cmd))).

(** [draws symb ctype ds9Cmd obj]: the command is a [line] with four
    arguments or a [text] with two or more, the arguments (of a
    [text], the first two) read as numbers, and [obj] is the viewer
    object with each of them less one. *)
Inductive draws (symb : string) (ctype : pyval) : string → prim → Prop :=
  | draws_line ds9Cmd p1 p2 p3 p4 x1 y1 x2 y2 :
      command_words ds9Cmd = ["line"; p1; p2; p3; p4] →
      float_of_str p1 = Some x1 →
      float_of_str p2 = Some y1 →
      float_of_str p3 = Some x2 →
      float_of_str p4 = Some y2 →
      draws symb ctype ds9Cmd
        (Line [fsub x1 (of_int 1); fsub y1 (of_int 1);
               fsub x2 (of_int 1); fsub y2 (of_int 1)] ctype)
  | draws_text ds9Cmd p q more x y :
      command_words ds9Cmd = "text" :: p :: q :: more →
      float_of_str p = Some x →
      float_of_str q = Some y →
      draws symb ctype ds9Cmd
        (Text (fsub x (of_int 1)) (fsub y (of_int 1)) symb ctype).

(** The command has a name, and it is neither [line] nor [text]. *)
Definition other_command (ds9Cmd : string) : Prop :=
  ∃ name args, command_words ds9Cmd = name :: args
               ∧ name ≠ "line" ∧ name ≠ "text".

(** The segments joining consecutive points. *)
Definition segments (points : list (F * F)) (ctype : pyval) : list prim :=
  zip_with (λ p0 p, Line [p0.1; p0.2; p.1; p.2] ctype) points (tail points).

End Ginga.

(** ** Example instances, for running the model

    Integer-valued coordinates, read from decimal numerals; angles are
    whole degrees, and [math.degrees] rounds with 355/113 for pi. *)

Fixpoint digits (acc : Z) (s : string) : option Z :=
  match s with
  | EmptyString => Some acc
  | String c s' =>
      let n := Z.of_nat (nat_of_ascii c) in
      if ((48 <=? n) && (n <=? 57))%Z
      then digits (10 * acc + (n - 48))%Z s'
      else None
  end.

Definition int_of_str (s : string) : option Z :=
  match s with
  | EmptyString => None
  | String "-" (String c s' as t) => Z.opp <$> digits 0 t
  | String "-" EmptyString => None
  | _ => digits 0 s
  end.

#[global] Instance integer_numerics : Numerics Z := {|
  Angle := Z;
  float_of_str := int_of_str;
  of_int := id;
  fsub := Z.sub;
  degrees := λ x, (x * 180 * 113 / 355)%Z;
  asDegrees := id;
  times_degrees := id
|}.

(** A region generator in the shape of afw's: 1-based coordinates, a
    [+] as two lines, an ellipse as an [ellipse] command, any other
    string as a [text] command that carries the font in its comment. *)
Definition example_regions : Ds9Regions (F := Z) :=
  λ symb c r size fontFamily textAngle,
    let c := (c + 1)%Z in
    let r := (r + 1)%Z in
    match symb with
    | SEllipse e =>
        Ok ["ellipse " ++ pretty c ++ " " ++ pretty r ++ " "
              ++ pretty (getA e) ++ "i " ++ pretty (getB e) ++ "i "
              ++ pretty (getTheta e)]
    | SStr "+" =>
        Ok ["line " ++ pretty c ++ " " ++ pretty (r + size)%Z ++ " "
              ++ pretty c ++ " " ++ pretty (r - size)%Z;
            "line " ++ pretty (c - size)%Z ++ " " ++ pretty r ++ " "
              ++ pretty (c + size)%Z ++ " " ++ pretty r]
    | SStr "@" =>
        Ok ["ellipse " ++ pretty c ++ " " ++ pretty r ++ " "
              ++ pretty size ++ "i " ++ pretty size ++ "i 0"]
    | SStr s =>
        Ok ["text " ++ pretty c ++ " " ++ pretty r ++ " " ++ s
              ++ (if String.eqb fontFamily "helvetica" then EmptyString
                  else " # font=" ++ fontFamily)]
    end.

(** The same generator with the font left out of its output. *)
Definition plain_regions : Ds9Regions (F := Z) :=
  λ symb c r size fontFamily textAngle,
    example_regions symb c r size "helvetica" None.

(** The adaptor's WCS in examples: one pixel per degree. *)
Definition example_wcs : @Wcs Z integer_numerics :=
  {| pixelToSky := λ idxs,
       match idxs with
        | [x; y] => Ok (x : @Angle Z integer_numerics,
                       y : @Angle Z integer_numerics)
       | _ => Raise TypeError
       end;
     skyToPixel := λ ra dec, Ok (ra : Z, dec : Z) |}.

(** A first [DisplayImpl] of a fresh process, on frame 0, and the
    process it leaves. *)
Definition first_display : result DisplayImpl * process (F := Z) :=
  __init__ (VInt 0) false false "localhost" 9914%Z false true (VStr "jpeg")
    module_loaded.

Definition first_self : DisplayImpl :=
  {| display := (0, "0"); verbose := false; _canvas := 0 |}.

Definition first_process : process (F := Z) := first_display.2.

(** The same after a line has been drawn. *)
Definition drawn_process : process (F := Z) :=
  (_drawLines first_self [(1, 2); (3, 4)]%Z (VStr "red") first_process).2.

(** A second display on frame 0, and the process with both. *)
Definition second_self : DisplayImpl :=
  {| display := (0, "0"); verbose := false; _canvas := 1 |}.

Definition two_displays : process (F := Z) :=
  (__init__ (VInt 0) false false "localhost" 9914%Z false true (VStr "png")
     drawn_process).2.

(** The process of a caller that has bound the module's [server] to
    [None] after the first display was made. *)
Definition server_bound : process (F := Z) :=
  set_globals (<["server" := GNone]> (globals first_process)) first_process.

(** * Properties *)

Section Claims.

Local Open Scope list_scope.

Context {F : Type} {numerics : Numerics F} {regions : Ds9Regions (F := F)}.

Notation "x <- m ;; k" := (bind m (λ x, k))
  (at level 100, m at next level, right associativity).
Notation "m ;;; k" := (bind m (λ _, k))
  (at level 100, right associativity).

Implicit Types (st : process) (d : viewer_ref) (self : DisplayImpl).

(** ** Sequencing *)

Lemma bind_eq {A B} (m : M A) (k : A → M B) st :
  bind m k st
  = match m st with
    | (Ok a, st') => k a st'
    | (Raise e, st') => (Raise e, st')
    end.
Proof. reflexivity. Qed.

Lemma for_each_cons {A} (body : A → M unit) x l st :
  for_each body (x :: l) st
  = match body x st with
    | (Ok _, st') => for_each body l st'
    | (Raise e, st') => (Raise e, st')
    end.
Proof. reflexivity. Qed.

(** A computation keeps an observation when the process shows the
    same of it after the call as before, returning or raising. *)
Definition keeps {A B} (obs : process → B) (m : M A) : Prop :=
  ∀ st, obs (m st).2 = obs st.

Lemma keeps_ret {A B} (obs : process → B) (a : A) : keeps obs (ret a).
Proof. done. Qed.

Lemma keeps_raise {A B} (obs : process → B) e : keeps obs (raise (A := A) e).
Proof. done. Qed.

Lemma keeps_lift {A B} (obs : process → B) (r : result A) : keeps obs (lift r).
Proof. done. Qed.

Lemma keeps_bind {A A' B} (obs : process → B) (m : M A) (k : A → M A') :
  keeps obs m → (∀ a, keeps obs (k a)) → keeps obs (bind m k).
Proof.
  intros Hm Hk st. rewrite bind_eq. specialize (Hm st).
  destruct (m st) as [[a|e] st1]; simpl in *; [|done].
  by rewrite Hk.
Qed.

Lemma keeps_modify {B} (obs : process → B) (f : process → process) :
  (∀ st, obs (f st) = obs st) → keeps obs (modify f).
Proof. intros Hf st. apply Hf. Qed.

Lemma keeps_for_each {A B} (obs : process → B) (body : A → M unit) l :
  (∀ x, keeps obs (body x)) → keeps obs (for_each body l).
Proof.
  intros Hbody. induction l as [|x l IH]; [done|].
  apply keeps_bind; auto.
Qed.

Create HintDb keeps discriminated.
#[local] Hint Resolve keeps_ret keeps_raise keeps_lift keeps_bind
  keeps_for_each : keeps.

(** ** The store *)

Lemma lookup_viewer_update d d0 (f : viewer → viewer) st :
  lookup_viewer d (update_viewer d0 f st).2
  = if decide (d0 = d) then f <$> lookup_viewer d st else lookup_viewer d st.
Proof.
  destruct d as [i n], d0 as [i0 n0].
  unfold lookup_viewer, update_viewer, update_server, modify; simpl.
  destruct (decide (i0 = i)) as [->|Hi].
  - rewrite list_lookup_alter_eq.
    destruct (servers st !! i) as [s|]; simpl.
    + destruct (decide (n0 = n)) as [->|Hn].
      * rewrite decide_True by done. apply lookup_alter_eq.
      * rewrite decide_False by congruence. by apply lookup_alter_ne.
    + by case_decide.
  - rewrite list_lookup_alter_ne by done.
    rewrite decide_False by congruence. done.
Qed.

Lemma update_viewer_ok d (f : viewer → viewer) st :
  (update_viewer d f st).1 = Ok tt.
Proof. reflexivity. Qed.

Lemma objects_canvas_add self obj st :
  objects self (canvas_add self obj st).2
  = (λ objs, objs ++ [obj]) <$> objects self st.
Proof.
  unfold objects, canvas_add. rewrite lookup_viewer_update.
  rewrite decide_True by done.
  destruct (lookup_viewer (display self) st) as [v|]; simpl; [|done].
  apply list_lookup_alter_eq.
Qed.

Lemma objects_for_each_canvas_add self objs st :
  (for_each (canvas_add self) objs st).1 = Ok tt
  ∧ objects self (for_each (canvas_add self) objs st).2
    = (λ old, old ++ objs) <$> objects self st.
Proof.
  revert st. induction objs as [|obj objs IH]; intros st.
  - split; [done|]. simpl. destruct (objects self st); simpl; [|done].
    by rewrite app_nil_r.
  - rewrite for_each_cons.
    pose proof (objects_canvas_add self obj st) as Hadd.
    destruct (canvas_add self obj st) as [[[]|e] st1] eqn:E;
      [|discriminate (f_equal fst E)].
    destruct (IH st1) as [Hok Hobj]. split; [done|].
    rewrite Hobj. simpl in Hadd. rewrite Hadd.
    destruct (objects self st); simpl; [|done].
    by rewrite <- app_assoc.
Qed.

Lemma objects_erase self st :
  objects self (_erase self st).2 = (λ _, []) <$> objects self st.
Proof.
  unfold objects, _erase, delete_all_objects. rewrite lookup_viewer_update.
  rewrite decide_True by done.
  destruct (lookup_viewer (display self) st) as [v|]; simpl; [|done].
  apply list_lookup_alter_eq.
Qed.

(** ** The coordinate adaptor *)

Lemma module_globals_unbound (name : string) :
  name = "wcs" ∨ name = "server" ∨ name = "self" →
  (module_globals (F := F)) !! name = None.
Proof. intros [->|[->| ->]]; vm_compute; reflexivity. Qed.

(** C2, on the code: for every adaptor and every [(ra, dec)],
    [radectopix] called in the module as imported raises [NameError]
    for the name [wcs]; the wrapped WCS is never asked. *)
Theorem radectopix_raises_NameError
    (self : WcsAdaptorForGinga) (ra_deg dec_deg : F) (coords naxispath : pyval) :
  radectopix self ra_deg dec_deg coords naxispath module_globals
  = (Raise (NameError "wcs"), self).
Proof.
  unfold radectopix. rewrite module_globals_unbound by auto. reflexivity.
Qed.

(** C5: for every pixel position and any [system] and [coords],
    [pixtosystem] returns what [pixtoradec] returns on that position
    (whatever [coords] that one is given), and both leave the adaptor
    as it was, holding the wrapped WCS. *)
Theorem pixtosystem_is_pixtoradec
    (self : WcsAdaptorForGinga) (idxs : list F) (system coords coords' : pyval) :
  pixtosystem self idxs system coords = pixtoradec self idxs coords'
  ∧ (pixtoradec self idxs coords').2 = self
  ∧ (pixtosystem self idxs system coords).2 = self.
Proof.
  unfold pixtosystem, pixtoradec.
  destruct (pixelToSky (_wcs self) idxs) as [[ra dec]|e]; auto.
Qed.

(** ** Lines *)

Lemma drawLines_for_each self (p0 : F * F) rest ctype st :
  _drawLines self (p0 :: rest) ctype st
  = for_each (canvas_add self) (segments (p0 :: rest) ctype) st.
Proof.
  unfold _drawLines, segments. simpl tail.
  revert p0 st. induction rest as [|p rest IH]; intros p0 st; [done|].
  cbn [zip_with]. rewrite for_each_cons, bind_eq.
  destruct (canvas_add self _ st) as [[[]|e] st1]; [|done].
  apply IH.
Qed.

(** C9: for a list of n >= 1 points [_drawLines] returns, and the
    canvas then holds what it held followed by the n-1 segments that
    join consecutive points in the order given (none for one point);
    for the empty list it raises [IndexError] and draws nothing. *)
Theorem drawLines_joins_consecutive_points
    self (p0 : F * F) (rest : list (F * F)) (ctype : pyval) st :
  (_drawLines self (p0 :: rest) ctype st).1 = Ok tt
  ∧ objects self (_drawLines self (p0 :: rest) ctype st).2
    = (λ old, old ++ segments (p0 :: rest) ctype) <$> objects self st
  ∧ segments (p0 :: rest) ctype
    = zip_with (λ a b, Line [a.1; a.2; b.1; b.2] ctype) (p0 :: rest) rest
  ∧ length (segments (p0 :: rest) ctype) = length (p0 :: rest) - 1
  ∧ _drawLines self [p0] ctype st = (Ok tt, st)
  ∧ _drawLines self [] ctype st = (Raise IndexError, st).
Proof.
  rewrite drawLines_for_each.
  destruct (objects_for_each_canvas_add self (segments (p0 :: rest) ctype) st)
    as [Hok Hobj].
  repeat split; try done.
  unfold segments. rewrite length_zip_with. cbn [length tail]. lia.
Qed.

(** ** Symbols: font and angle *)

(** C10: two [_dot] calls that differ only in [fontFamily] and
    [textAngle] do the same to the process, whatever the region
    generator; and [_dot] with a generator is [_dot] with that
    generator asked for "helvetica" and no angle only. *)
Theorem dot_ignores_fontFamily_and_textAngle
    (g : Ds9Regions) self (symb : symbol) (c r size : F) (ctype : pyval)
    (ff1 ff2 : string) (ta1 ta2 : option F) st :
  _dot (regions := g) self symb c r size ctype ff1 ta1 st
  = _dot (regions := g) self symb c r size ctype ff2 ta2 st
  ∧ _dot (regions := g) self symb c r size ctype ff1 ta1 st
    = _dot (regions := λ symb c r size _ _, g symb c r size "helvetica" None)
        self symb c r size ctype ff2 ta2 st.
Proof. split; reflexivity. Qed.

(** ** Images *)

Lemma update_viewer_twice d (f g : viewer → viewer) st :
  update_viewer d f (update_viewer d g st).2 = update_viewer d (f ∘ g) st.
Proof.
  unfold update_viewer, update_server, modify, set_servers; simpl.
  do 2 f_equal. rewrite list_alter_alter_eq.
  apply list_alter_ext; [|done]. intros s _. unfold set_viewers; simpl.
  f_equal. apply alter_alter_eq.
Qed.

Lemma update_viewer_ext d (f g : viewer → viewer) st :
  (∀ v, f v = g v) → update_viewer d f st = update_viewer d g st.
Proof.
  intros Hfg. unfold update_viewer, update_server, modify, set_servers; simpl.
  do 2 f_equal. apply list_alter_ext; [|done]. intros s _.
  unfold set_viewers. f_equal. apply alter_ext. auto.
Qed.

Lemma erase_idempotent self st :
  _erase self (_erase self st).2 = _erase self st.
Proof.
  unfold _erase, delete_all_objects. rewrite update_viewer_twice.
  apply update_viewer_ext. intros v. unfold set_canvases; simpl.
  f_equal. rewrite list_alter_alter_eq. by apply list_alter_ext.
Qed.

Lemma objects_update_viewer self d (f : viewer → viewer) :
  (∀ v, canvases (f v) = canvases v) →
  keeps (objects self) (update_viewer d f).
Proof.
  intros Hf st. unfold objects. rewrite lookup_viewer_update.
  case_decide; [|done].
  destruct (lookup_viewer (display self) st) as [v|]; simpl; [|done].
  by rewrite Hf.
Qed.

Lemma shown_update_viewer d d0 (f : viewer → viewer) :
  (∀ v, image (f v) = image v) →
  keeps (shown d) (update_viewer d0 f).
Proof.
  intros Hf st. unfold shown. rewrite lookup_viewer_update.
  case_decide; [|done].
  destruct (lookup_viewer d st) as [v|]; simpl; [|done].
  by rewrite Hf.
Qed.

Lemma mtv_after_erase self image' mask wcs' title st :
  _mtv self image' mask wcs' title st
  = (match image' with
     | Some im =>
         update_viewer (display self) (λ v,
           set_display
             (Some {| data_np := getArray im;
                      wcs := (λ w, {| _wcs := w |}) <$> wcs' |})
             (settings v) (opened v) v)
     | None => ret tt
     end ;;;
     match mask with
     | Some _ => print "Mask displays are not yet supported in Ginga"
     | None => ret tt
     end) (_erase self st).2.
Proof. reflexivity. Qed.

(** C8: every [_mtv] call returns, its outcome is that of the same call
    on the erased canvas (the erasure comes first), and it leaves the
    canvas empty; with [image] and [mask] both absent it is exactly
    [_erase], and the image shown stays the one shown before. *)
Theorem mtv_erases_first
    self (image' mask : option Image) (wcs' : option Wcs) (title : string) st :
  (_mtv self image' mask wcs' title st).1 = Ok tt
  ∧ _mtv self image' mask wcs' title st
    = _mtv self image' mask wcs' title (_erase self st).2
  ∧ objects self (_mtv self image' mask wcs' title st).2
    = (λ _, []) <$> objects self st
  ∧ _mtv self None None wcs' title st = _erase self st
  ∧ shown (display self) (_mtv self None None wcs' title st).2
    = shown (display self) st.
Proof.
  split; [by destruct image', mask|].
  split; [by rewrite !mtv_after_erase, erase_idempotent|].
  split.
  - rewrite mtv_after_erase, <- objects_erase.
    apply keeps_bind.
    + destruct image'; [by apply objects_update_viewer|done].
    + intros _. by destruct mask.
  - split; [done|]. rewrite mtv_after_erase. simpl.
    unfold _erase, delete_all_objects. by apply shown_update_viewer.
Qed.

(** ** The server handle and the constructor *)


Lemma lookup_viewer_make_server d h p cv :
  keeps (lookup_viewer d) (make_server h p cv).
Proof.
  intros st. unfold lookup_viewer, make_server; simpl.
  destruct (decide (d.1 < length (servers st))) as [Hlt|Hge].
  - by rewrite lookup_app_l.
  - rewrite lookup_app_r by lia.
    rewrite (lookup_ge_None_2 (servers st)) by lia.
    destruct (d.1 - length (servers st)); simpl; [apply lookup_empty|done].
Qed.

Lemma the_server_Some h p cv nio st sid :
  DisplayImpl_server st = Some sid →
  the_server h p cv nio st = (Ok sid, st).
Proof. intros Hs. unfold the_server. by rewrite Hs. Qed.

Lemma the_server_None h p cv nio st :
  DisplayImpl_server st = None →
  the_server h p cv nio st
  = (Ok (length (servers st)),
     {| globals := globals st;
        DisplayImpl_server := Some (length (servers st));
        servers := servers st
                   ++ [{| host := h; port := p; use_opencv := cv;
                          running := true; viewers := ∅ |}];
        stdout := stdout st; stderr := stderr st |}).
Proof.
  intros Hs. unfold the_server. rewrite Hs.
  unfold bind, make_server, modify, server_start, update_server, modify,
    set_servers, set_DisplayImpl_server, ret; simpl.
  do 2 f_equal.
  rewrite <- (Nat.add_0_r (length (servers st))) at 1.
  by rewrite alter_app_r.
Qed.

(** What the first statement of the constructor establishes. *)
Lemma the_server_spec h p cv nio st :
  wf st →
  ∃ sid st1,
    the_server h p cv nio st = (Ok sid, st1)
    ∧ sid = default (length (servers st)) (DisplayImpl_server st)
    ∧ DisplayImpl_server st1 = Some sid
    ∧ sid < length (servers st1)
    ∧ (∀ d, lookup_viewer d st1 = lookup_viewer d st)
    ∧ globals st1 = globals st
    ∧ stdout st1 = stdout st.
Proof.
  unfold wf. intros Hwf.
  destruct (DisplayImpl_server st) as [sid|] eqn:Hs.
  - exists sid, st. rewrite (the_server_Some _ _ _ _ _ _ Hs). auto 10.
  - eexists _, _. rewrite (the_server_None _ _ _ _ _ Hs).
    split; [done|]. simpl. rewrite length_app. simpl.
    repeat split; try done; try lia.
    intros d. unfold lookup_viewer; simpl.
    destruct (decide (d.1 < length (servers st))) as [Hlt|Hge].
    + by rewrite lookup_app_l.
    + rewrite lookup_app_r by lia.
      rewrite (lookup_ge_None_2 (servers st)) by lia.
      destruct (d.1 - length (servers st)); simpl; [apply lookup_empty|done].
Qed.

Lemma server_get_viewer_eq sid name st :
  server_get_viewer sid name st
  = (Ok (sid, name),
     (update_server sid (λ s,
        match viewers s !! name with
        | Some _ => s
        | None => set_viewers (<[name := new_viewer]> (viewers s)) s
        end) st).2).
Proof. reflexivity. Qed.

Lemma lookup_viewer_get_viewer d sid name st :
  lookup_viewer d (server_get_viewer sid name st).2
  = if decide (d = (sid, name))
    then (λ s, default new_viewer (viewers s !! name)) <$> servers st !! sid
    else lookup_viewer d st.
Proof.
  rewrite server_get_viewer_eq.
  destruct d as [i n]. unfold lookup_viewer, update_server, modify; simpl.
  destruct (decide (sid = i)) as [->|Hne].
  - rewrite list_lookup_alter_eq.
    destruct (servers st !! i) as [s|]; simpl; [|by case_decide].
    destruct (viewers s !! name) as [v|] eqn:Hv; simpl.
    + case_decide as Hd; [|done]. by simplify_eq.
    + destruct (decide (n = name)) as [->|Hn].
      * rewrite decide_True by done. apply lookup_insert_eq.
      * rewrite decide_False by congruence. by apply lookup_insert_ne.
  - rewrite list_lookup_alter_ne by done.
    rewrite decide_False by congruence. done.
Qed.

Lemma add_canvas_eq d st :
  add_canvas d st
  = (Ok (canvas_count d st),
     (update_viewer d (λ v, set_canvases (canvases v ++ [[]]) v) st).2).
Proof. reflexivity. Qed.

Lemma add_canvas_snd d st :
  (add_canvas d st).2
  = (update_viewer d (λ v, set_canvases (canvases v ++ [[]]) v) st).2.
Proof. reflexivity. Qed.

Lemma set_canvas_format_ok d fmt st :
  (set_canvas_format d fmt st).1 = Ok tt.
Proof. unfold set_canvas_format. by case_bool_decide. Qed.

Lemma lookup_viewer_set_canvas_format d d0 fmt st :
  lookup_viewer d (set_canvas_format d0 fmt st).2
  = if decide (d0 = d ∧ fmt ∈ canvas_types)
    then (λ v, set_display (image v)
                 (<["html5_canvas_format" := fmt]> (settings v)) (opened v) v)
         <$> lookup_viewer d st
    else lookup_viewer d st.
Proof.
  unfold set_canvas_format. case_bool_decide as Hfmt.
  - rewrite lookup_viewer_update.
    destruct (decide (d0 = d)) as [->|Hne].
    + by rewrite decide_True.
    + by rewrite decide_False by (intros [? _]; done).
  - by rewrite decide_False by (intros [_ ?]; done).
Qed.

(** The process after the constructor's statements that follow the
    first, for the server [sid] and the process [st1] the first left. *)
Definition after_init (frame : pyval) (open : bool) (fmt : pyval)
    (sid : nat) (st1 : process) : process :=
  let d := (sid, py_str frame) in
  let st2 := (server_get_viewer sid (py_str frame) st1).2 in
  let st3 := (add_canvas d st2).2 in
  let st4 := (set_canvas_format d fmt st3).2 in
  if open
  then (update_viewer d (λ v, set_display (image v) (settings v) true v) st4).2
  else st4.

Lemma init_eq frame vb op h p cv nio fmt st sid st1 :
  the_server h p cv nio st = (Ok sid, st1) →
  __init__ frame vb op h p cv nio fmt st
  = (Ok {| display := (sid, py_str frame); verbose := false;
           _canvas := canvas_count (sid, py_str frame)
                        (server_get_viewer sid (py_str frame) st1).2 |},
     after_init frame op fmt sid st1).
Proof.
  intros Hthe. unfold __init__, after_init.
  rewrite bind_eq, Hthe, bind_eq, server_get_viewer_eq, bind_eq, add_canvas_eq.
  rewrite bind_eq.
  pose proof (set_canvas_format_ok (sid, py_str frame) fmt
    (update_viewer (sid, py_str frame)
       (λ v, set_canvases (canvases v ++ [[]]) v)
       (update_server sid (λ s,
          match viewers s !! py_str frame with
          | Some _ => s
          | None => set_viewers (<[py_str frame := new_viewer]> (viewers s)) s
          end) st1).2).2) as Hok.
  destruct (set_canvas_format _ _ _) as [[[]|e] st4]; [|done].
  by destruct op.
Qed.

(** The constructor's viewer, once the server is in the store. *)
Lemma lookup_viewer_after_init frame op fmt sid st1 :
  sid < length (servers st1) →
  let d := (sid, py_str frame) in
  let v0 := default new_viewer (lookup_viewer d st1) in
  lookup_viewer d (after_init frame op fmt sid st1)
  = Some {| canvases := canvases v0 ++ [[]]; image := image v0;
            settings := if decide (fmt ∈ canvas_types)
                        then <["html5_canvas_format" := fmt]> (settings v0)
                        else settings v0;
            opened := if op then true else opened v0;
            color_map := color_map v0;
            color_algorithm := color_algorithm v0;
            autocut_params := autocut_params v0; cut := cut v0;
            scale := scale v0; pan := pan v0 |}.
Proof.
  intros Hlt d v0. unfold after_init. fold d.
  assert (lookup_viewer d (server_get_viewer sid (py_str frame) st1).2
          = Some v0) as H2.
  { rewrite lookup_viewer_get_viewer, decide_True by done.
    destruct (lookup_lt_is_Some_2 _ _ Hlt) as [s Hs].
    subst v0 d. unfold lookup_viewer. simpl. rewrite Hs. done. }
  assert (∀ st4 : process,
    lookup_viewer d st4
    = Some (set_display (image v0)
              (if decide (fmt ∈ canvas_types)
               then <["html5_canvas_format" := fmt]> (settings v0)
               else settings v0) (opened v0)
              (set_canvases (canvases v0 ++ [[]]) v0)) →
    lookup_viewer d
      (if op
       then (update_viewer d
               (λ v, set_display (image v) (settings v) true v) st4).2
       else st4)
    = Some {| canvases := canvases v0 ++ [[]]; image := image v0;
              settings := if decide (fmt ∈ canvas_types)
                          then <["html5_canvas_format" := fmt]> (settings v0)
                          else settings v0;
              opened := if op then true else opened v0;
              color_map := color_map v0;
              color_algorithm := color_algorithm v0;
              autocut_params := autocut_params v0; cut := cut v0;
              scale := scale v0; pan := pan v0 |}) as Hop.
  { intros st4 H4. destruct op.
    - rewrite lookup_viewer_update, decide_True, H4 by done. done.
    - rewrite H4. done. }
  apply Hop.
  assert (lookup_viewer d
            (add_canvas d (server_get_viewer sid (py_str frame) st1).2).2
          = Some (set_canvases (canvases v0 ++ [[]]) v0)) as H3.
  { by rewrite add_canvas_snd, lookup_viewer_update, decide_True, H2. }
  rewrite lookup_viewer_set_canvas_format, H3.
  destruct (decide (fmt ∈ canvas_types)) as [Hin|Hout].
  - rewrite decide_True by done. done.
  - rewrite decide_False by (intros [_ ?]; done). done.
Qed.

Lemma lookup_viewer_after_init_ne frame op fmt sid st1 d' :
  d' ≠ (sid, py_str frame) →
  lookup_viewer d' (after_init frame op fmt sid st1) = lookup_viewer d' st1.
Proof.
  intros Hne. unfold after_init.
  assert (lookup_viewer d'
            (set_canvas_format (sid, py_str frame) fmt
               (add_canvas (sid, py_str frame)
                  (server_get_viewer sid (py_str frame) st1).2).2).2
          = lookup_viewer d' st1) as H4.
  { rewrite lookup_viewer_set_canvas_format.
    rewrite (decide_False (P := _ ∧ _)) by (intros [? _]; congruence).
    rewrite add_canvas_snd.
    rewrite lookup_viewer_update, decide_False by done.
    by rewrite lookup_viewer_get_viewer, decide_False. }
  destruct op; [|done].
  by rewrite lookup_viewer_update, decide_False.
Qed.

Lemma fmap_running_alter (f : server → server) sid (l : list server) :
  (∀ s, running (f s) = running s) →
  running <$> alter f sid l = running <$> l.
Proof.
  intros Hf. revert sid. induction l as [|s l IH]; intros [|sid];
    simpl; [done|done| |].
  - f_equal. apply Hf.
  - f_equal. apply IH.
Qed.

Lemma after_init_handle frame op fmt sid st1 :
  DisplayImpl_server (after_init frame op fmt sid st1) = DisplayImpl_server st1
  ∧ globals (after_init frame op fmt sid st1) = globals st1
  ∧ stderr (after_init frame op fmt sid st1) = stderr st1.
Proof.
  unfold after_init, set_canvas_format.
  by destruct op; case_bool_decide.
Qed.

Lemma after_init_stdout frame op fmt sid st1 :
  stdout (after_init frame op fmt sid st1)
  = stdout st1 ++ if decide (fmt ∈ canvas_types) then []
                  else [unknown_format_message fmt].
Proof.
  unfold after_init, set_canvas_format.
  destruct (decide (fmt ∈ canvas_types)) as [Hin|Hout].
  - rewrite bool_decide_eq_true_2 by done.
    destruct op; simpl; by rewrite app_nil_r.
  - rewrite bool_decide_eq_false_2 by done. by destruct op.
Qed.

Lemma after_init_running frame op fmt sid st1 :
  running <$> servers (after_init frame op fmt sid st1)
  = running <$> servers st1.
Proof.
  unfold after_init, set_canvas_format.
  destruct op; case_bool_decide; simpl;
    rewrite ?fmap_running_alter; try done; intros s; by destruct (viewers s !! _).
Qed.

(** ** Unsupported requests *)

(** The warnings that are printed: [_setMaskTransparency] for a single
    mask plane leaves the display state as it was; [_mtv] with a mask
    returns, prints its warning, and changes the display state as the
    same call without the mask does; a constructor given a
    [canvas_format] other than 'jpeg' and 'png' returns, prints its
    warning, and leaves the settings of its viewer as they were (none
    for a new viewer). *)
Lemma warning_branches self st :
  (∀ transparency maskplane,
     maskplane ≠ VNone →
     display_state (_setMaskTransparency transparency maskplane st).2
     = display_state st)
  ∧ (∀ image' m wcs' title,
       (_mtv self image' (Some m) wcs' title st).1 = Ok tt
       ∧ stdout (_mtv self image' (Some m) wcs' title st).2
         = stdout st ++ ["Mask displays are not yet supported in Ginga"]
       ∧ display_state (_mtv self image' (Some m) wcs' title st).2
         = display_state (_mtv self image' None wcs' title st).2)
  ∧ (∀ frame vb op h p cv nio canvas_format,
       wf st →
       canvas_format ∉ canvas_types →
       ∃ inst st',
         __init__ frame vb op h p cv nio canvas_format st = (Ok inst, st')
         ∧ stdout st' = stdout st ++ [unknown_format_message canvas_format]
         ∧ settings <$> lookup_viewer (display inst) st'
           = Some (from_option settings ∅ (lookup_viewer (display inst) st))).
Proof.
  split; [|split].
  - intros t mp Hmp. unfold _setMaskTransparency.
    rewrite bool_decide_eq_true_2 by done. done.
  - intros im m w title. by destruct im.
  - intros frame vb op h p cv nio fmt Hwf Hfmt.
    destruct (the_server_spec h p cv nio st Hwf)
      as (sid & st1 & Hthe & _ & _ & Hlt & Hview & _ & Hout).
    eexists _, _. split; [by apply init_eq|].
    rewrite after_init_stdout, decide_False, Hout by done.
    split; [done|]. simpl.
    pose proof (lookup_viewer_after_init frame op fmt sid st1 Hlt) as Hv.
    simpl in Hv. rewrite Hv, decide_False by done. simpl.
    rewrite Hview. by destruct (lookup_viewer _ st).
Qed.

(** C3, on the code: [_setMaskTransparency] for a mask plane, the first
    of the unsupported requests, raises [TypeError] where it formats
    its warning, the template having no conversion for the plane;
    nothing is printed and the process is as before. *)
Theorem setMaskTransparency_raises_TypeError
    (transparency maskplane : pyval) st :
  maskplane ≠ VNone →
  _setMaskTransparency transparency maskplane st = (Raise TypeError, st).
Proof.
  intros Hmp. unfold _setMaskTransparency.
  rewrite bool_decide_eq_true_2 by done.
  rewrite bind_eq. unfold no_maskplanes, py_format, lift.
  by destruct maskplane.
Qed.

(** ** Shutting the server down *)

Lemma shutdown_server_eq st :
  shutdown_server st
  = (Ok tt,
     {| globals := globals st; DisplayImpl_server := None;
        servers := match DisplayImpl_server st with
                   | Some sid => alter (set_running false) sid (servers st)
                   | None => servers st
                   end;
        stdout := stdout st; stderr := stderr st |}).
Proof.
  unfold shutdown_server.
  destruct (DisplayImpl_server st) as [sid|] eqn:E; [reflexivity|].
  destruct st; simpl in *; subst; reflexivity.
Qed.

(** C6: [shutdown_server] returns, stops the server the handle names
    and clears the handle; called again, from any instance, before a
    new server is made, it does nothing; and the next construction
    makes a server that was not in the process before, records it in
    the handle and starts it, the stopped ones staying stopped. *)
Theorem shutdown_server_idempotent
    st frame vb op h p cv nio canvas_format :
  let st1 := (shutdown_server st).2 in
  (shutdown_server st).1 = Ok tt
  ∧ DisplayImpl_server st1 = None
  ∧ servers st1
    = match DisplayImpl_server st with
      | Some sid => alter (set_running false) sid (servers st)
      | None => servers st
      end
  ∧ shutdown_server st1 = (Ok tt, st1)
  ∧ ∃ inst st2,
      __init__ frame vb op h p cv nio canvas_format st1 = (Ok inst, st2)
      ∧ (display inst).1 = length (servers st1)
      ∧ DisplayImpl_server st2 = Some (length (servers st1))
      ∧ running <$> servers st2 = (running <$> servers st1) ++ [true].
Proof.
  intros st1.
  assert (DisplayImpl_server st1 = None) as Hnone.
  { subst st1. by rewrite shutdown_server_eq. }
  split; [by rewrite shutdown_server_eq|].
  split; [done|].
  split; [subst st1; by rewrite shutdown_server_eq|].
  split; [unfold shutdown_server; by rewrite Hnone|].
  eexists _, _. split; [apply init_eq, the_server_None, Hnone|].
  split; [done|].
  destruct (after_init_handle frame op canvas_format (length (servers st1))
    {| globals := globals st1;
       DisplayImpl_server := Some (length (servers st1));
       servers := servers st1
                  ++ [{| host := h; port := p; use_opencv := cv;
                         running := true; viewers := ∅ |}];
       stdout := stdout st1; stderr := stderr st1 |}) as (Hh & _ & _).
  split; [by rewrite Hh|].
  rewrite after_init_running. simpl. by rewrite fmap_app.
Qed.

(** ** Canvases *)

Lemma canvas_count_update_viewer d d0 (f : viewer → viewer) :
  (∀ v, length (canvases (f v)) = length (canvases v)) →
  keeps (canvas_count d) (update_viewer d0 f).
Proof.
  intros Hf st. unfold canvas_count. rewrite lookup_viewer_update.
  case_decide; [|done].
  destruct (lookup_viewer d st) as [v|]; simpl; [apply Hf|done].
Qed.


Lemma canvas_count_canvas_add d self obj :
  keeps (canvas_count d) (canvas_add self obj).
Proof.
  apply canvas_count_update_viewer. intros v; simpl. apply length_alter.
Qed.

Lemma canvas_count_erase d self : keeps (canvas_count d) (_erase self).
Proof.
  apply canvas_count_update_viewer. intros v; simpl. apply length_alter.
Qed.

Lemma canvas_count_print d line : keeps (canvas_count d) (print line).
Proof. done. Qed.

Lemma canvas_count_print_stderr d line :
  keeps (canvas_count d) (print_stderr line).
Proof. done. Qed.

#[local] Hint Resolve canvas_count_canvas_add canvas_count_erase
  canvas_count_print canvas_count_print_stderr : keeps.



Lemma canvas_count_get_viewer sid name st :
  sid < length (servers st) →
  canvas_count (sid, name) (server_get_viewer sid name st).2
  = canvas_count (sid, name) st.
Proof.
  intros Hlt. unfold canvas_count.
  rewrite lookup_viewer_get_viewer, decide_True by done.
  destruct (lookup_lt_is_Some_2 _ _ Hlt) as [s Hs].
  unfold lookup_viewer; simpl. rewrite Hs; simpl.
  by destruct (viewers s !! name).
Qed.


(** ** Uses of the server handle *)

(** What holds of the process after any uses: the module's namespace
    is the one it was imported with, and either no server was made, or
    one was, it runs, and the handle names it. *)
Definition served (st : process) : Prop :=
  globals st = module_globals
  ∧ ((DisplayImpl_server st = None ∧ servers st = [])
     ∨ (DisplayImpl_server st = Some 0
        ∧ running <$> servers st = [true])).

Lemma served_wf st : served st → wf st.
Proof.
  intros [_ [[Hs _]|[Hs Hr]]]; unfold wf; rewrite Hs; [done|].
  apply (f_equal length) in Hr. rewrite length_fmap in Hr. simpl in Hr. lia.
Qed.

Lemma initGinga_unbound h p cv nio st :
  globals st !! "server" = None →
  initGinga h p cv nio st = (Raise (NameError "server"), st).
Proof. intros Hg. unfold initGinga. by rewrite Hg. Qed.

Lemma served_step st u : served st → served (use_step st u).
Proof.
  intros Hst. pose proof Hst as [Hg Hs].
  destruct u as [frame vb op h p cv nio fmt|h p cv nio]; simpl.
  - destruct Hs as [[Hnone Hnil]|[Hsome Hrun]].
    + rewrite (init_eq _ _ _ _ _ _ _ _ _ _ _
                 (the_server_None h p cv nio st Hnone)); simpl.
      destruct (after_init_handle frame op fmt (length (servers st))
        {| globals := globals st;
           DisplayImpl_server := Some (length (servers st));
           servers := servers st
                      ++ [{| host := h; port := p; use_opencv := cv;
                             running := true; viewers := ∅ |}];
           stdout := stdout st; stderr := stderr st |}) as (Hh & Hgl & _).
      split; [by rewrite Hgl|]. right.
      rewrite Hh, after_init_running; simpl. by rewrite Hnil.
    + rewrite (init_eq _ _ _ _ _ _ _ _ _ _ _
                 (the_server_Some h p cv nio st 0 Hsome)); simpl.
      destruct (after_init_handle frame op fmt 0 st) as (Hh & Hgl & _).
      split; [by rewrite Hgl|]. right.
      by rewrite Hh, after_init_running.
  - rewrite initGinga_unbound; [done|].
    rewrite Hg. apply module_globals_unbound. auto.
Qed.

Lemma served_uses us st : served st → served (uses us st).
Proof.
  unfold uses. revert st.
  induction us as [|u us IH]; intros st Hst; [done|].
  simpl. apply IH. by apply served_step.
Qed.

Lemma served_module_loaded : served module_loaded.
Proof. split; [done|]. by left. Qed.

(** After any constructions and calls of [initGinga] the process has
    at most one server, and it runs. *)
Lemma uses_at_most_one_server us :
(length (servers (uses us module_loaded)) ≤ 1)%nat
  ∧ running_servers (uses us module_loaded) = servers (uses us module_loaded).
Proof.
  destruct (served_uses us _ served_module_loaded) as [_ [[_ Hnil]|[_ Hrun]]].
  - unfold running_servers. rewrite Hnil. split; [simpl; lia|done].
  - unfold running_servers.
    destruct (servers (uses us module_loaded)) as [|s [|s' l]];
      try done.
    simpl in Hrun. injection Hrun as Hs.
    split; [simpl; lia|].
    rewrite filter_cons_True by done. done.
Qed.

(** C1, on the code: after any constructions and calls of [initGinga]
    in a process, a call of [initGinga] raises [NameError] for the
    global [server], which the module never binds, and leaves the
    process as it was: it neither makes a server nor reuses one. *)
Theorem initGinga_raises_NameError us h p cv nio :
  initGinga h p cv nio (uses us module_loaded)
  = (Raise (NameError "server"), uses us module_loaded).
Proof.
  apply initGinga_unbound.
  destruct (served_uses us _ served_module_loaded) as [Hg _].
  rewrite Hg. apply module_globals_unbound. auto.
Qed.

(** ** Symbols: region commands *)

Lemma for_each_app {A} (body : A → M unit) l1 l2 st :
  for_each body (l1 ++ l2) st
  = match for_each body l1 st with
    | (Ok _, st') => for_each body l2 st'
    | (Raise e, st') => (Raise e, st')
    end.
Proof.
  revert st. induction l1 as [|x l1 IH]; intros st; [done|].
  rewrite <- app_comm_cons, !for_each_cons.
  destruct (body x st) as [[[]|e] st1]; [apply IH|done].
Qed.

Lemma for_each_raises {A} (body : A → M unit) l x st :
  (∀ st', raises (body x st').1 = true) →
  x ∈ l →
  raises (for_each body l st).1 = true.
Proof.
  intros Hx Hin. revert st.
  induction l as [|y l IH]; intros st; [by apply elem_of_nil in Hin|].
  rewrite for_each_cons.
  apply elem_of_cons in Hin as [<-|Hin].
  - specialize (Hx st). by destruct (body x st) as [[[]|e] st1].
  - destruct (body y st) as [[[]|e] st1]; [by apply IH|done].
Qed.

Lemma split_on_cons sep s : ∃ w ws, split_on sep s = w :: ws.
Proof.
  destruct s as [|c s]; simpl; [by eauto|].
  destruct (Ascii.eqb c sep); [by eauto|].
  destruct (split_on sep s); eauto.
Qed.

Lemma floats_minus_1_Forall2 args xs :
  Forall2 (λ p x, float_of_str p = Some x) args xs →
  floats_minus_1 args = Ok ((λ x, fsub x (of_int 1)) <$> xs).
Proof.
  induction 1 as [|p x args xs Hp _ IH]; simpl; [done|].
  unfold float. by rewrite Hp, IH.
Qed.

(** The loop body, by the words of the command. *)
Lemma dot_command_eq self symb ctype ds9Cmd st :
  dot_command self symb ctype ds9Cmd st
  = match command_words ds9Cmd with
    | [] => (Raise IndexError, st)
    | cmd :: args =>
        if String.eqb cmd "line" then
          match floats_minus_1 args with
          | Ok [x1; y1; x2; y2] =>
              canvas_add self (Line [x1; y1; x2; y2] ctype) st
          | Ok _ => (Raise TypeError, st)
          | Raise e => (Raise e, st)
          end
        else if String.eqb cmd "text" then
          match floats_minus_1 (take 2 args) with
          | Ok [x; y] => canvas_add self (Text x y symb ctype) st
          | Ok _ => (Raise ValueError, st)
          | Raise e => (Raise e, st)
          end
        else (Raise (RuntimeError ds9Cmd), st)
    end.
Proof.
  unfold dot_command, command_words.
  destruct (split_on_cons "#" ds9Cmd) as (w & ws & ->).
  rewrite bind_eq. simpl.
  destruct (split w) as [|cmd args]; [done|].
  destruct (String.eqb cmd "line").
  { rewrite bind_eq. unfold lift.
    by destruct (floats_minus_1 args) as [[|x1 [|y1 [|x2 [|y2 [|z xs]]]]]|e]. }
  destruct (String.eqb cmd "text"); [|done].
  rewrite bind_eq. unfold lift.
  destruct (floats_minus_1 (take 2 args)) as [[|x [|y [|z xs]]]|e]; done.
Qed.

Lemma dot_command_draws self symb ctype ds9Cmd obj st :
  draws symb ctype ds9Cmd obj →
  dot_command self symb ctype ds9Cmd st = canvas_add self obj st.
Proof.
  intros Hd. rewrite dot_command_eq.
  destruct Hd as [ds9Cmd p1 p2 p3 p4 x1 y1 x2 y2 Hw H1 H2 H3 H4
                 |ds9Cmd p q more x y Hw Hp Hq];
    rewrite Hw.
  - simpl. unfold float. by rewrite H1, H2, H3, H4.
  - simpl. unfold float. by rewrite Hp, Hq.
Qed.

(** A [line] whose arguments are numbers, but not four of them, is
    refused by the line class: [TypeError], and nothing is drawn. *)
Lemma dot_command_line_arity self symb ctype ds9Cmd args xs st :
  command_words ds9Cmd = "line" :: args →
  Forall2 (λ p x, float_of_str p = Some x) args xs →
  length args ≠ 4 →
  dot_command self symb ctype ds9Cmd st = (Raise TypeError, st).
Proof.
  intros Hw Hxs Hlen. rewrite dot_command_eq, Hw. simpl.
  rewrite (floats_minus_1_Forall2 _ _ Hxs).
  apply Forall2_length in Hxs. rewrite Hxs in Hlen.
  by destruct xs as [|x1 [|y1 [|x2 [|y2 [|z xs]]]]].
Qed.

Lemma dot_command_other self symb ctype ds9Cmd st :
  other_command ds9Cmd →
  dot_command self symb ctype ds9Cmd st = (Raise (RuntimeError ds9Cmd), st).
Proof.
  intros (name & args & Hw & Hline & Htext). rewrite dot_command_eq, Hw.
  apply String.eqb_neq in Hline, Htext. by rewrite Hline, Htext.
Qed.

Lemma for_each_draws self symb ctype cmds objs st :
  Forall2 (draws symb ctype) cmds objs →
  for_each (dot_command self symb ctype) cmds st
  = for_each (canvas_add self) objs st.
Proof.
  intros Hd. revert st.
  induction Hd as [|cmd obj cmds objs Hcmd _ IH]; intros st; [done|].
  rewrite !for_each_cons, (dot_command_draws _ _ _ _ _ _ Hcmd).
  destruct (canvas_add self obj st) as [[[]|e] st1]; [apply IH|done].
Qed.

(** C4: for a symbol that is a string other than "o", with [cmds] the
    region commands of the generator: if each command is a [line] of
    four numbers or a [text] that begins with two, [_dot] returns and
    the canvas then holds what it held followed by one object per
    command, in order, each coordinate being the command's less one; a
    command of another name, after commands of that kind, makes [_dot]
    raise [RuntimeError] with the command, the objects of the commands
    before it being drawn; and with such a command anywhere [_dot]
    raises. *)
Theorem dot_region_commands
    self (s : string) (c r size : F) (ctype : pyval) (fontFamily : string)
    (textAngle : option F) (cmds : list string) st :
  s ≠ "o" →
  ds9Regions_dot (SStr s) c r size "helvetica" None = Ok cmds →
  (∀ objs,
     Forall2 (draws s ctype) cmds objs →
     (_dot self (SStr s) c r size ctype fontFamily textAngle st).1 = Ok tt
     ∧ objects self
         (_dot self (SStr s) c r size ctype fontFamily textAngle st).2
       = (λ old, old ++ objs) <$> objects self st)
  ∧ (∀ pre cmd post objs,
       cmds = pre ++ cmd :: post →
       Forall2 (draws s ctype) pre objs →
       other_command cmd →
       (_dot self (SStr s) c r size ctype fontFamily textAngle st).1
       = Raise (RuntimeError cmd)
       ∧ objects self
           (_dot self (SStr s) c r size ctype fontFamily textAngle st).2
         = (λ old, old ++ objs) <$> objects self st)
  ∧ (∀ cmd,
       cmd ∈ cmds →
       other_command cmd →
       raises (_dot self (SStr s) c r size ctype fontFamily textAngle st).1
       = true).
Proof.
  intros Hs Hcmds.
  assert (_dot self (SStr s) c r size ctype fontFamily textAngle st
          = for_each (dot_command self s ctype) cmds st) as ->.
  { unfold _dot. apply String.eqb_neq in Hs. rewrite Hs.
    by rewrite bind_eq, Hcmds. }
  split; [|split].
  - intros objs Hd. rewrite (for_each_draws _ _ _ _ _ _ Hd).
    apply objects_for_each_canvas_add.
  - intros pre cmd post objs -> Hd Hother.
    rewrite for_each_app, (for_each_draws _ _ _ _ _ _ Hd).
    destruct (objects_for_each_canvas_add self objs st) as [Hok Hobj].
    destruct (for_each (canvas_add self) objs st) as [[[]|e] st1];
      [|done].
    rewrite for_each_cons, (dot_command_other _ _ _ _ _ Hother).
    done.
  - intros cmd Hin Hother. apply (for_each_raises _ _ cmd); [|done].
    intros st'. by rewrite (dot_command_other _ _ _ _ _ Hother).
Qed.

End Claims.

(** * The properties at work on the example instances *)

Example first_display_returns : first_display.1 = Ok first_self.
Proof. reflexivity. Qed.

Example first_process_wf : wf first_process.
Proof. vm_compute. lia. Qed.

(** A string symbol is drawn as text at the 0-based position, whatever
    the font asked for. *)
Example dot_text :
  objects first_self
    (_dot (regions := example_regions) first_self (SStr "hi")
       10%Z 20%Z 2%Z (VStr "red") "times" None first_process).2
  = Some [Text 10%Z 20%Z "hi" (VStr "red")].
Proof. vm_compute. reflexivity. Qed.

(** A second display on the same frame shares the viewer and gets a
    canvas of its own. *)
Example second_display_same_frame :
  (__init__ (VInt 0) false false "localhost" 9914%Z false true (VStr "png")
     first_process).1
  = Ok {| display := (0, "0"); verbose := false; _canvas := 1 |}.
Proof. vm_compute. reflexivity. Qed.

Lemma setMaskTransparency_raises_TypeError_witness :
  VStr "BAD" ≠ VNone
  ∧ _setMaskTransparency (F := Z) (VInt 50) (VStr "BAD") first_process
    = (Raise TypeError, first_process).
Proof.
  assert (VStr "BAD" ≠ VNone) as Hbad by discriminate.
  split; [exact Hbad|].
  exact (setMaskTransparency_raises_TypeError (VInt 50) (VStr "BAD")
           first_process Hbad).
Defined.

Lemma dot_region_commands_witness :
  "+" ≠ "o"
  ∧ example_regions (SStr "+") 10%Z 20%Z 2%Z "helvetica" None
    = Ok ["line 11 23 11 19"; "line 9 21 13 21"]
  ∧ (_dot (regions := example_regions) first_self (SStr "+")
       10%Z 20%Z 2%Z (VStr "red") "times" None first_process).1
    = Ok tt
  ∧ objects first_self
      (_dot (regions := example_regions) first_self (SStr "+")
         10%Z 20%Z 2%Z (VStr "red") "times" None first_process).2
    = Some [Line [10; 22; 10; 18]%Z (VStr "red");
            Line [8; 20; 12; 20]%Z (VStr "red")]
  ∧ "@" ≠ "o"
  ∧ (_dot (regions := example_regions) first_self (SStr "@")
       10%Z 20%Z 2%Z (VStr "red") "times" None first_process).1
    = Raise (RuntimeError "ellipse 11 21 2i 2i 0").
Proof.
  assert ("+" ≠ "o") as Hplus by discriminate.
  assert ("@" ≠ "o") as Hat by discriminate.
  assert (example_regions (SStr "+") 10%Z 20%Z 2%Z "helvetica" None
          = Ok ["line 11 23 11 19"; "line 9 21 13 21"]) as Hcmds
    by reflexivity.
  destruct (dot_region_commands (regions := example_regions) first_self
              "+" 10%Z 20%Z 2%Z (VStr "red") "times" None _ first_process
              Hplus Hcmds) as (Hdraw & _ & _).
  destruct (Hdraw [Line [10; 22; 10; 18]%Z (VStr "red");
                   Line [8; 20; 12; 20]%Z (VStr "red")]) as [Hok Hobj].
  { constructor; [|constructor; [|constructor]].
    - exact (draws_line "+" (VStr "red") "line 11 23 11 19"
               "11" "23" "11" "19" 11%Z 23%Z 11%Z 19%Z
               eq_refl eq_refl eq_refl eq_refl eq_refl).
    - exact (draws_line "+" (VStr "red") "line 9 21 13 21"
               "9" "21" "13" "21" 9%Z 21%Z 13%Z 21%Z
               eq_refl eq_refl eq_refl eq_refl eq_refl). }
  assert (example_regions (SStr "@") 10%Z 20%Z 2%Z "helvetica" None
          = Ok ["ellipse 11 21 2i 2i 0"]) as Hell by reflexivity.
  destruct (dot_region_commands (regions := example_regions) first_self
              "@" 10%Z 20%Z 2%Z (VStr "red") "times" None _ first_process
              Hat Hell) as (_ & Herr & _).
  destruct (Herr [] "ellipse 11 21 2i 2i 0" [] [] eq_refl) as [Hraise _].
  { constructor. }
  { exists "ellipse", ["11"; "21"; "2i"; "2i"; "0"].
    split; [reflexivity|]. split; discriminate. }
  split; [exact Hplus|]. split; [exact Hcmds|]. split; [exact Hok|].
  split; [rewrite Hobj; reflexivity|]. split; [exact Hat|exact Hraise].
Defined.


(** * Further properties of the module *)

Section Further.

Local Open Scope list_scope.

Context {F : Type} {numerics : Numerics F} {regions : Ds9Regions (F := F)}.

Notation "x <- m ;; k" := (bind m (λ x, k))
  (at level 100, m at next level, right associativity).
Notation "m ;;; k" := (bind m (λ _, k))
  (at level 100, right associativity).

Implicit Types (st : process) (d : viewer_ref) (self : DisplayImpl).

(** ** What a method call keeps *)

(** The update of the canvas of [self] by [f]. *)
Definition canvas_update self (f : list prim → list prim) : M unit :=
  update_viewer (display self) (λ v,
    set_canvases (alter f (_canvas self) (canvases v)) v).

(** An observation is kept by a call when the process updates the
    method is made of keep it: canvas updates (drawing methods only),
    viewer updates that leave the canvases alone, the shutdown (that
    method only), and printing. *)
Lemma call_keeps {B} (obs : process → B) self (m : method) :
  (is_drawing m = true → ∀ f, keeps obs (canvas_update self f)) →
  (∀ f, (∀ v, canvases (f v) = canvases v) →
        keeps obs (update_viewer (display self) f)) →
  (m = Shutdown_server → keeps obs shutdown_server) →
  (∀ line, keeps obs (print line)) →
  (∀ line, keeps obs (print_stderr line)) →
  keeps obs (call self m).
Proof.
  intros Hc Hv Hs Hp Hq.
  assert (∀ A (r : result A), keeps obs (lift r)) as Hl by done.
  assert (∀ A (a : A), keeps obs (ret a)) as Hr by done.
  assert (∀ A e, keeps obs (raise (A := A) e)) as He by done.
  destruct m as [ | |args|args| |t mp|mp|im mk w title|e| |
                 |symb c r size ctype ff ta|points ctype|alg lo hi u|z|c r| ];
    simpl in *.
  - by apply keeps_bind.
  - by apply Hs.
  - intros st. unfold show_color_bar.
    by destruct args, (globals st !! "self").
  - intros st. unfold show_pan_mark.
    by destruct args as [|? [|? ?]], (globals st !! "self").
  - done.
  - unfold _setMaskTransparency. case_bool_decide; [|done].
    apply keeps_bind; auto.
  - done.
  - unfold _mtv. apply keeps_bind; [by apply (Hc eq_refl)|]. intros _.
    apply keeps_bind.
    + destruct im; [|done]. by apply Hv.
    + intros _. destruct mk; auto.
  - done.
  - done.
  - by apply (Hc eq_refl).
  - assert (∀ obj, keeps obs (canvas_add self obj)) as Hadd
      by (intros obj; apply (Hc eq_refl)).
    unfold _dot. destruct symb as [e|s]; [done|].
    destruct (String.eqb s "o"); [done|].
    apply keeps_bind; [done|]. intros cmds.
    apply keeps_for_each. intros cmd.
    unfold dot_command. apply keeps_bind; [done|]. intros tmp.
    destruct (split tmp.1) as [|name args]; [done|].
    destruct (String.eqb name "line").
    { apply keeps_bind; [done|]. intros xs. by apply keeps_bind. }
    destruct (String.eqb name "text"); [|done].
    apply keeps_bind; [done|].
    by intros [|x [|y [|? ?]]].
  - destruct points as [|p0 rest]; [done|].
    intros st. rewrite drawLines_for_each. revert st.
    apply keeps_for_each. intros obj. apply (Hc eq_refl).
  - unfold _scale. apply keeps_bind; [by apply Hv|].
    intros _. destruct (level_is lo "zscale"); [by apply Hv|].
    destruct (level_is lo "minmax"); [by apply Hv|].
    apply keeps_bind; [|intros _; by apply Hv].
    destruct (truthy u); [|done].
    apply keeps_bind; auto.
  - by apply Hv.
  - by apply Hv.
  - done.
Qed.

(** ** The life of the server *)

Lemma flags_set_running b sid (l : list server) :
  running <$> alter (set_running b) sid l = <[sid := b]> (running <$> l).
Proof.
  revert sid. induction l as [|s l IH]; intros [|sid]; simpl; [done..|].
  f_equal. apply IH.
Qed.

Lemma flags_update_viewer d (f : viewer → viewer) :
  keeps (λ st, (globals st, DisplayImpl_server st, flags st))
    (update_viewer d f).
Proof.
  intros st. unfold flags, update_viewer, update_server, modify; simpl.
  by rewrite fmap_running_alter.
Qed.

Lemma insert_end_replicate n :
  <[n := true]> (replicate (S n) false) = replicate n false ++ [true].
Proof. induction n as [|n IH]; [done|]. simpl in *. f_equal. apply IH. Qed.

(** The handle and the running servers agree: the server the handle
    names runs and no other does. *)
Definition lifecycle (st : process) : Prop :=
  globals st = module_globals
  ∧ wf st
  ∧ flags st
    = match DisplayImpl_server st with
      | Some sid => <[sid := true]> (replicate (length (servers st)) false)
      | None => replicate (length (servers st)) false
      end.

Lemma lifecycle_construct frame vb op h p cv nio fmt st :
  lifecycle st →
  lifecycle (__init__ frame vb op h p cv nio fmt st).2.
Proof.
  intros (Hg & Hwf & Hfl). unfold wf in Hwf.
  assert (∀ sid st1,
    length (servers (after_init frame op fmt sid st1)) = length (servers st1))
    as Hlen.
  { intros sid st1.
    rewrite <- (length_fmap running), after_init_running.
    apply length_fmap. }
  destruct (DisplayImpl_server st) as [sid|] eqn:Hs.
  - rewrite (init_eq _ _ _ _ _ _ _ _ _ _ _
               (the_server_Some h p cv nio st sid Hs)); simpl.
    destruct (after_init_handle frame op fmt sid st) as (Hh & Hgl & _).
    unfold lifecycle, wf, flags.
    rewrite Hh, Hgl, after_init_running, Hlen, Hs. done.
  - rewrite (init_eq _ _ _ _ _ _ _ _ _ _ _
               (the_server_None h p cv nio st Hs)); simpl.
    destruct (after_init_handle frame op fmt (length (servers st))
      {| globals := globals st;
         DisplayImpl_server := Some (length (servers st));
         servers := servers st
                    ++ [{| host := h; port := p; use_opencv := cv;
                           running := true; viewers := ∅ |}];
         stdout := stdout st; stderr := stderr st |}) as (Hh & Hgl & _).
    unfold lifecycle, wf, flags.
    rewrite Hh, Hgl, after_init_running, Hlen; simpl.
    rewrite length_app; simpl.
    split; [done|]. split; [lia|].
    rewrite fmap_app; simpl. unfold flags in Hfl. rewrite Hfl.
    by rewrite Nat.add_1_r, insert_end_replicate.
Qed.

Lemma lifecycle_initGinga h p cv nio st :
  lifecycle st → initGinga h p cv nio st = (Raise (NameError "server"), st).
Proof.
  intros (Hg & _). apply initGinga_unbound.
  rewrite Hg. apply module_globals_unbound. auto.
Qed.

Lemma lifecycle_shutdown st : lifecycle st → lifecycle (shutdown_server st).2.
Proof.
  intros (Hg & Hwf & Hfl). rewrite shutdown_server_eq.
  unfold lifecycle, wf, flags in *; simpl.
  split; [done|]. split; [done|].
  destruct (DisplayImpl_server st) as [sid|]; [|done].
  rewrite flags_set_running, Hfl, list_insert_insert_eq, length_alter.
  apply insert_replicate.
Qed.

Lemma lifecycle_call self m st : lifecycle st → lifecycle (call self m st).2.
Proof.
  intros Hst.
  assert (m = Shutdown_server ∨ m ≠ Shutdown_server) as [->|Hm]
    by (destruct m; auto).
  { by apply lifecycle_shutdown. }
  assert (keeps (λ st, (globals st, DisplayImpl_server st, flags st))
            (call self m)) as Hk.
  { apply call_keeps; try done.
    - intros _ f. apply flags_update_viewer.
    - intros f _. apply flags_update_viewer. }
  specialize (Hk st). injection Hk as Hg Hh Hf.
  destruct Hst as (Hg0 & Hwf & Hfl).
  assert (length (servers (call self m st).2) = length (servers st)) as Hlen.
  { apply (f_equal length) in Hf. unfold flags in Hf.
    by rewrite !length_fmap in Hf. }
  unfold lifecycle, wf in *. rewrite Hg, Hh, Hf, Hlen. done.
Qed.

Lemma lifecycle_run es st : lifecycle st → lifecycle (run es st).
Proof.
  unfold run. revert st.
  induction es as [|e es IH]; intros st Hst; [done|].
  simpl. apply IH.
  destruct e as [[frame vb op h p cv nio fmt|h p cv nio]|self m]; simpl.
  - by apply lifecycle_construct.
  - by rewrite lifecycle_initGinga.
  - by apply lifecycle_call.
Qed.

Lemma lifecycle_module_loaded : lifecycle module_loaded.
Proof. done. Qed.

Lemma running_servers_flags st :
  length (running_servers st) = length (filter (λ b, b = true) (flags st)).
Proof.
  unfold running_servers, flags.
  induction (servers st) as [|s l IH]; [done|]. simpl.
  destruct (decide (running s = true)) as [Hr|Hr].
  - rewrite !filter_cons_True by done. simpl. by rewrite IH.
  - rewrite !filter_cons_False by done. done.
Qed.

Lemma count_replicate_false n :
  filter (λ b, b = true) (replicate n false) = [].
Proof. induction n as [|n IH]; [done|]. simpl. by rewrite filter_cons_False. Qed.

Lemma count_insert_true n sid :
  sid < n →
  filter (λ b, b = true) (<[sid := true]> (replicate n false)) = [true].
Proof.
  revert sid. induction n as [|n IH]; intros sid Hlt; [lia|].
  destruct sid as [|sid]; simpl.
  - rewrite filter_cons_True by done. by rewrite count_replicate_false.
  - rewrite filter_cons_False by done. apply IH. lia.
Qed.

(** X1: whatever constructions, [initGinga] calls and method calls
    (shutdowns among them) a process has gone through, exactly one
    server runs when the handle [DisplayImpl.server] is set, the one it
    names, and none runs when it is not. *)
Theorem one_running_server_at_most (es : list event) :
  let st := run es module_loaded in
  length (running_servers st)
  = match DisplayImpl_server st with Some _ => 1 | None => 0 end
  ∧ match DisplayImpl_server st with
    | Some sid => running <$> servers st !! sid = Some true
    | None => running_servers st = []
    end.
Proof.
  intros st.
  destruct (lifecycle_run es _ lifecycle_module_loaded) as (_ & Hwf & Hfl).
  fold st in Hwf, Hfl. unfold wf in Hwf.
  pose proof (running_servers_flags st) as Hlen. rewrite Hfl in Hlen.
  destruct (DisplayImpl_server st) as [sid|].
  - rewrite count_insert_true in Hlen by done. split; [done|].
    rewrite <- list_lookup_fmap. fold (flags st).
    rewrite Hfl. apply list_lookup_insert_eq.
    by rewrite length_replicate.
  - rewrite count_replicate_false in Hlen. split; [done|].
    by apply nil_length_inv.
Qed.

(** X2: after any such history, [show_color_bar] and [show_pan_mark]
    raise whatever they are given, [TypeError] for too many arguments
    and [NameError] for [self] otherwise, and change nothing. *)
Theorem show_methods_always_raise (es : list event) (args : list pyval) :
  let st := run es module_loaded in
  show_color_bar args st
  = (Raise (if args is [] then NameError "self" else TypeError), st)
  ∧ show_pan_mark args st
    = (Raise (if args is _ :: _ :: _ then TypeError else NameError "self"),
       st).
Proof.
  intros st.
  destruct (lifecycle_run es _ lifecycle_module_loaded) as (Hg & _).
  fold st in Hg. unfold show_color_bar, show_pan_mark.
  rewrite Hg, module_globals_unbound by auto.
  by destruct args as [|? [|? ?]].
Qed.

(** ** Mask transparency *)

(** X3: [_setMaskTransparency] does nothing and returns when no mask
    plane is named, and for any mask plane raises [TypeError] before
    anything is printed; either way the process is as before, and
    [_getMaskTransparency] afterwards returns [None] whatever was set. *)
Theorem setMaskTransparency_never_sets (transparency maskplane : pyval) st :
  _setMaskTransparency transparency maskplane st
  = (if decide (maskplane = VNone) then Ok tt else Raise TypeError, st)
  ∧ _getMaskTransparency maskplane
      (_setMaskTransparency transparency maskplane st).2
    = (Ok VNone, st).
Proof.
  unfold _setMaskTransparency, _getMaskTransparency.
  destruct (decide (maskplane = VNone)) as [->|Hmp].
  - done.
  - by rewrite bool_decide_eq_true_2.
Qed.

(** ** Circles and ellipses *)

(** X4: for the symbol "o" [_dot] returns having added one circle of
    radius [size], and for an ellipse object one ellipse with the
    object's axes and its angle in degrees, either at (c, r) as given,
    with no shift, and whatever the region generator is. *)
Theorem dot_circle_and_ellipse
    (g : Ds9Regions) self (e : BaseCore) (c r size : F) (ctype : pyval)
    (fontFamily : string) (textAngle : option F) st :
  (_dot (regions := g) self (SStr "o") c r size ctype fontFamily textAngle
     st).1 = Ok tt
  ∧ objects self
      (_dot (regions := g) self (SStr "o") c r size ctype fontFamily
         textAngle st).2
    = (λ old, old ++ [Circle c r size ctype]) <$> objects self st
  ∧ (_dot (regions := g) self (SEllipse e) c r size ctype fontFamily
       textAngle st).1 = Ok tt
  ∧ objects self
      (_dot (regions := g) self (SEllipse e) c r size ctype fontFamily
         textAngle st).2
    = (λ old, old ++ [Ellipse c r (getA e) (getB e) (degrees (getTheta e))
                        ctype]) <$> objects self st.
Proof.
  repeat split; try done; apply objects_canvas_add.
Qed.

(** ** Canvases are apart *)

Lemma lookup_viewer_shutdown d : keeps (lookup_viewer d) shutdown_server.
Proof.
  intros st. rewrite shutdown_server_eq. unfold lookup_viewer; simpl.
  destruct (DisplayImpl_server st) as [sid|]; [|done].
  destruct (decide (sid = d.1)) as [->|Hne].
  - rewrite list_lookup_alter_eq. by destruct (servers st !! d.1).
  - by rewrite list_lookup_alter_ne.
Qed.

Lemma objects_canvas_update_ne self other f :
  (display self, _canvas self) ≠ (display other, _canvas other) →
  keeps (objects other) (canvas_update self f).
Proof.
  intros Hne st. unfold objects, canvas_update.
  rewrite lookup_viewer_update.
  destruct (decide (display self = display other)) as [Hd|Hd]; [|done].
  destruct (lookup_viewer (display other) st) as [v|]; simpl; [|done].
  apply list_lookup_alter_ne. congruence.
Qed.

(** X5: a method called on one [DisplayImpl] leaves the objects on the
    canvas of any other as they are, also when both are on one viewer;
    and a method that is not [_mtv], [_erase], [_dot] or [_drawLines]
    leaves the objects on every canvas, its own too. *)
Theorem calls_leave_other_canvases self other (m : method) st :
  is_drawing m = false
  ∨ (display self, _canvas self) ≠ (display other, _canvas other) →
  objects other (call self m st).2 = objects other st.
Proof.
  intros Hm. apply call_keeps; try done.
  - intros Hdraw f. destruct Hm as [Hm|Hm]; [congruence|].
    by apply objects_canvas_update_ne.
  - intros f Hf. by apply objects_update_viewer.
  - intros _ st'. unfold objects.
    by rewrite (lookup_viewer_shutdown (display other) st').
Qed.

(** ** Constructions *)

(** What a construction returns and leaves, for a process whose handle
    is in the store. *)
Lemma construct_spec frame vb op h p cv nio fmt st :
  wf st →
  let d := (default (length (servers st)) (DisplayImpl_server st),
            py_str frame) in
  let v0 := default new_viewer (lookup_viewer d st) in
  ∃ st',
    __init__ frame vb op h p cv nio fmt st
    = (Ok {| display := d; verbose := false;
             _canvas := length (canvases v0) |}, st')
    ∧ lookup_viewer d st'
      = Some {| canvases := canvases v0 ++ [[]]; image := image v0;
                settings := if decide (fmt ∈ canvas_types)
                            then <["html5_canvas_format" := fmt]> (settings v0)
                            else settings v0;
                opened := if op then true else opened v0;
                color_map := color_map v0;
                color_algorithm := color_algorithm v0;
                autocut_params := autocut_params v0; cut := cut v0;
                scale := scale v0; pan := pan v0 |}
    ∧ (∀ d', d' ≠ d → lookup_viewer d' st' = lookup_viewer d' st)
    ∧ DisplayImpl_server st' = Some d.1
    ∧ wf st'
    ∧ stdout st'
      = stdout st ++ (if decide (fmt ∈ canvas_types) then []
                      else [unknown_format_message fmt])
    ∧ stderr st' = stderr st.
Proof.
  intros Hwf d v0.
  destruct (the_server_spec h p cv nio st Hwf)
    as (sid & st1 & Hthe & Hsid & Hh1 & Hlt & Hview & _ & Hout).
  assert (stderr st1 = stderr st) as Herr.
  { unfold wf in Hwf. destruct (DisplayImpl_server st) as [sid'|] eqn:Hs.
    - rewrite (the_server_Some _ _ _ _ _ _ Hs) in Hthe. by simplify_eq.
    - rewrite (the_server_None _ _ _ _ _ Hs) in Hthe. by simplify_eq. }
  assert (d = (sid, py_str frame)) as Hd by (subst d; by rewrite Hsid).
  exists (after_init frame op fmt sid st1).
  destruct (after_init_handle frame op fmt sid st1) as (Hh & _ & He).
  pose proof (lookup_viewer_after_init frame op fmt sid st1 Hlt) as Hv.
  simpl in Hv. rewrite Hview, <- Hd in Hv. fold v0 in Hv.
  split.
  { rewrite (init_eq _ vb _ _ _ _ _ _ _ _ _ Hthe). rewrite <- Hd.
    do 2 f_equal. rewrite Hd, canvas_count_get_viewer by done.
    unfold canvas_count. rewrite <- Hd, Hview. subst v0.
    by destruct (lookup_viewer d st). }
  split; [exact Hv|].
  split.
  { intros d' Hne. rewrite lookup_viewer_after_init_ne by congruence.
    apply Hview. }
  split; [by rewrite Hh, Hh1, Hd|].
  split.
  { unfold wf. rewrite Hh, Hh1.
    rewrite <- (length_fmap running), after_init_running, length_fmap.
    done. }
  split; [by rewrite after_init_stdout, Hout|].
  by rewrite He.
Qed.

(** X6: when the server exists, a construction ignores [verbose],
    [host], [port], [use_opencv] and [no_ioloop]: it returns the same
    and leaves the same whatever they are. *)
Theorem constructor_ignores_server_arguments
    frame (vb vb' op : bool) (h h' : string) (p p' : Z)
    (cv cv' nio nio' : bool) fmt st sid :
  DisplayImpl_server st = Some sid →
  __init__ frame vb op h p cv nio fmt st
  = __init__ frame vb' op h' p' cv' nio' fmt st.
Proof.
  intros Hs.
  by rewrite !(init_eq _ _ _ _ _ _ _ _ _ _ _
                 (the_server_Some _ _ _ _ st sid Hs)).
Qed.

(** X7: two constructions for one frame return displays on the same
    viewer with canvases of their own, the second next to the first,
    both empty, so that the viewer of the frame has two canvases more
    than before. *)
Theorem two_displays_on_one_frame
    frame vb op h p cv nio fmt vb' op' h' p' cv' nio' fmt' st :
  wf st →
  ∃ inst st1 inst' st2,
    __init__ frame vb op h p cv nio fmt st = (Ok inst, st1)
    ∧ __init__ frame vb' op' h' p' cv' nio' fmt' st1 = (Ok inst', st2)
    ∧ display inst' = display inst
    ∧ _canvas inst' = S (_canvas inst)
    ∧ objects inst st2 = Some []
    ∧ objects inst' st2 = Some []
    ∧ canvas_count (display inst) st2
      = S (S (canvas_count (display inst) st)).
Proof.
  intros Hwf.
  destruct (construct_spec frame vb op h p cv nio fmt st Hwf)
    as (st1 & H1 & Hv1 & _ & Hh1 & Hwf1 & _).
  destruct (construct_spec frame vb' op' h' p' cv' nio' fmt' st1 Hwf1)
    as (st2 & H2 & Hv2 & _).
  simpl in *. rewrite Hh1 in H2, Hv2. simpl in *. rewrite Hv1 in H2, Hv2.
  simpl in *.
  eexists _, st1, _, st2. split; [exact H1|]. split; [exact H2|].
  split; [done|]. simpl.
  split; [rewrite length_app; simpl; lia|].
  unfold objects, canvas_count; simpl. rewrite Hv2; simpl.
  split; [|split].
  - rewrite lookup_app_l by (rewrite length_app; simpl; lia).
    by rewrite lookup_app_r, Nat.sub_diag.
  - by rewrite lookup_app_r, Nat.sub_diag.
  - rewrite !length_app; simpl.
    destruct (lookup_viewer _ st); simpl; lia.
Qed.


(** X9: after a shutdown a construction returns a display on a new
    viewer of the new server, with the first canvas of that viewer,
    even for a frame that had a display before; the viewers of the
    servers made earlier are as they were. *)
Theorem construction_after_shutdown frame vb op h p cv nio fmt st :
  ∃ inst st2,
    __init__ frame vb op h p cv nio fmt (shutdown_server st).2
    = (Ok inst, st2)
    ∧ display inst = (length (servers st), py_str frame)
    ∧ _canvas inst = 0
    ∧ canvas_count (display inst) st2 = 1
    ∧ ∀ d, d.1 < length (servers st) →
           lookup_viewer d st2 = lookup_viewer d st.
Proof.
  assert (wf (shutdown_server st).2) as Hwf
    by (rewrite shutdown_server_eq; exact I).
  destruct (construct_spec frame vb op h p cv nio fmt _ Hwf)
    as (st2 & Hinit & Hv & Hne & _).
  assert (length (servers (shutdown_server st).2) = length (servers st))
    as Hlen.
  { rewrite shutdown_server_eq; simpl.
    destruct (DisplayImpl_server st); [apply length_alter|done]. }
  assert (DisplayImpl_server (shutdown_server st).2 = None) as Hnone
    by (by rewrite shutdown_server_eq).
  rewrite Hnone, Hlen in Hinit, Hv, Hne. simpl in *.
  assert (lookup_viewer (length (servers st), py_str frame)
            (shutdown_server st).2 = None) as Hnew.
  { unfold lookup_viewer; simpl.
    rewrite (lookup_ge_None_2 (servers _)); [done|]. by rewrite Hlen. }
  rewrite Hnew in Hinit, Hv. simpl in *.
  eexists _, st2. split; [exact Hinit|]. split; [done|]. split; [done|].
  split; [unfold canvas_count; simpl; by rewrite Hv|].
  intros d' Hlt. rewrite Hne.
  - apply lookup_viewer_shutdown.
  - intros ->. simpl in Hlt. lia.
Qed.

(** ** Grey scale *)

Lemma string_app_empty (s : string) : (s ++ EmptyString)%string = s.
Proof.
  induction s as [|c s IH]; [done|].
  change (String c (s ++ EmptyString)%string = String c s). by rewrite IH.
Qed.

Lemma ignoring_unit_message (u : pyval) :
  py_format [Lit "ginga: ignoring scale unit "; ConvS] (One u)
  = Ok ("ginga: ignoring scale unit " ++ py_str u)%string.
Proof.
  change (Ok ("ginga: ignoring scale unit "
              ++ (py_str u ++ EmptyString))%string
          = Ok ("ginga: ignoring scale unit " ++ py_str u)%string).
  by rewrite string_app_empty.
Qed.

(** X10: [_scale] returns; on its viewer it sets the colour map 'gray'
    and the algorithm, and then automatic levels with the 'zscale' or
    'minmax' cut when [min] is that name (ignoring [max] and [unit]),
    else the cut levels [min] and [max], after a line that says the
    unit is ignored when one is given; nothing else of the viewer
    changes. *)
Theorem scale_sets_colours self (algorithm : string) (lo hi : level)
    (u : pyval) st :
  let auto := level_is lo "zscale" || level_is lo "minmax" in
  (_scale self algorithm lo hi u st).1 = Ok tt
  ∧ lookup_viewer (display self) (_scale self algorithm lo hi u st).2
    = (λ v, set_colors (Some "gray") (Some algorithm)
              (if level_is lo "zscale" then Some AutocutZscale
               else if level_is lo "minmax" then Some AutocutMinmax
               else autocut_params v)
              (Some (if auto then AutoLevels else CutLevels lo hi)) v)
      <$> lookup_viewer (display self) st
  ∧ stdout (_scale self algorithm lo hi u st).2
    = stdout st
      ++ (if auto then []
          else if truthy u
               then [("ginga: ignoring scale unit " ++ py_str u)%string]
               else []).
Proof.
  intros auto. subst auto. unfold _scale, ignoring_unit.
  rewrite ignoring_unit_message, bind_eq.
  assert (∀ (f : viewer → viewer) (st' : process),
    lookup_viewer (display self) st'
    = (λ v, set_colors (Some "gray") (Some algorithm)
              (autocut_params v) (cut v) v)
      <$> lookup_viewer (display self) st →
    lookup_viewer (display self) (update_viewer (display self) f st').2
    = (λ v, f (set_colors (Some "gray") (Some algorithm)
                 (autocut_params v) (cut v) v))
      <$> lookup_viewer (display self) st) as Hstep.
  { intros f st' Hst'. rewrite lookup_viewer_update, decide_True, Hst' by done.
    by destruct (lookup_viewer (display self) st). }
  assert (lookup_viewer (display self)
            (update_viewer (display self)
               (λ v, set_colors (Some "gray") (Some algorithm)
                       (autocut_params v) (cut v) v) st).2
          = (λ v, set_colors (Some "gray") (Some algorithm)
                    (autocut_params v) (cut v) v)
            <$> lookup_viewer (display self) st) as H1.
  { by rewrite lookup_viewer_update, decide_True. }
  destruct (level_is lo "zscale"); simpl orb; cbv iota.
  { split; [done|]. split; [|by rewrite app_nil_r].
    apply (Hstep (λ v, set_colors (color_map v) (color_algorithm v)
                         (Some AutocutZscale) (Some AutoLevels) v)), H1. }
  destruct (level_is lo "minmax"); cbv iota.
  { split; [done|]. split; [|by rewrite app_nil_r].
    apply (Hstep (λ v, set_colors (color_map v) (color_algorithm v)
                         (Some AutocutMinmax) (Some AutoLevels) v)), H1. }
  destruct (truthy u).
  - split; [done|]. split; [|done].
    apply (Hstep (λ v, set_colors (color_map v) (color_algorithm v)
                         (autocut_params v) (Some (CutLevels lo hi)) v)), H1.
  - split; [done|]. split; [|by rewrite app_nil_r].
    apply (Hstep (λ v, set_colors (color_map v) (color_algorithm v)
                         (autocut_params v) (Some (CutLevels lo hi)) v)), H1.
Qed.

(** ** Polylines *)

Lemma segments_app (l1 l2 : list (F * F)) (p : F * F) ctype :
  segments (l1 ++ [p]) ctype ++ segments (p :: l2) ctype
  = segments (l1 ++ p :: l2) ctype.
Proof.
  unfold segments.
  induction l1 as [|a l1 IH]; [done|].
  destruct l1 as [|b l1]; [done|].
  simpl in *. f_equal. apply IH.
Qed.

(** X11: drawing a polyline in two parts that share their joint is
    drawing it whole: [_drawLines] on the points up to [p], then on the
    points from [p], leaves the process as [_drawLines] on all of them
    does. *)
Theorem drawLines_in_two_parts
    self (l1 l2 : list (F * F)) (p : F * F) (ctype : pyval) st :
  (_drawLines self (l1 ++ [p]) ctype ;;; _drawLines self (p :: l2) ctype) st
  = _drawLines self (l1 ++ p :: l2) ctype st.
Proof.
  rewrite bind_eq.
  assert (∀ l : list (F * F), ∃ q rest, l ++ [p] = q :: rest) as Hne
    by (intros [|q l]; simpl; eauto).
  destruct (Hne l1) as (q & rest & Hq). rewrite Hq.
  assert (l1 ++ p :: l2 = q :: rest ++ l2) as Hall.
  { change (p :: l2) with ([p] ++ l2).
    by rewrite app_assoc, Hq. }
  rewrite Hall, !drawLines_for_each.
  rewrite <- Hall, <- segments_app, Hq, for_each_app.
  destruct (for_each (canvas_add self) (segments (q :: rest) ctype) st)
    as [[[]|e] st1] eqn:E; [by rewrite drawLines_for_each|].
  pose proof (objects_for_each_canvas_add self
                (segments (q :: rest) ctype) st) as [Hok _].
  by rewrite E in Hok.
Qed.

(** ** Images *)

Lemma servers_update_viewer d (f : viewer → viewer) st :
  servers (update_viewer d f st).2
  = alter (λ s, set_viewers (alter f d.2 (viewers s)) s) d.1 (servers st).
Proof. reflexivity. Qed.

(** The servers after an [_mtv]: the canvas emptied, the image set
    when one is given. *)
Definition mtv_viewer self (im : option Image) (w : option Wcs)
    (v : viewer) : viewer :=
  let v1 := set_canvases (alter (λ _, []) (_canvas self) (canvases v)) v in
  match im with
  | Some im =>
      set_display
        (Some {| data_np := getArray im;
                 wcs := (λ w, {| _wcs := w |}) <$> w |})
        (settings v1) (opened v1) v1
  | None => v1
  end.

Lemma servers_mtv self im mk w title st :
  servers (_mtv self im mk w title st).2
  = servers (update_viewer (display self) (mtv_viewer self im w) st).2.
Proof.
  assert (servers (_mtv self im mk w title st).2
          = servers (_mtv self im None w title st).2) as ->
    by (by destruct im, mk).
  destruct im as [im|]; [|done].
  change (servers
            (update_viewer (display self)
               (λ v, set_display
                       (Some {| data_np := getArray im;
                                wcs := (λ w, {| _wcs := w |}) <$> w |})
                       (settings v) (opened v) v)
               (update_viewer (display self)
                  (λ v, set_canvases
                          (alter (λ _, []) (_canvas self) (canvases v)) v)
                  st).2).2
          = servers (update_viewer (display self)
                       (mtv_viewer self (Some im) w) st).2).
  by rewrite update_viewer_twice.
Qed.

(** X12: of two [_mtv] calls on a display the second decides: when it
    gives an image, the display state after both is the one after the
    second alone, whatever the first showed, with or without masks. *)
Theorem mtv_last_image_wins
    self (im1 mk1 mk2 : option Image) (im2 : Image) (w1 w2 : option Wcs)
    (t1 t2 : string) st :
  display_state
    ((_mtv self im1 mk1 w1 t1 ;;; _mtv self (Some im2) mk2 w2 t2) st).2
  = display_state (_mtv self (Some im2) mk2 w2 t2 st).2.
Proof.
  rewrite bind_eq.
  pose proof (servers_mtv self im1 mk1 w1 t1 st) as H1.
  assert ((_mtv self im1 mk1 w1 t1 st).1 = Ok tt
          ∧ DisplayImpl_server (_mtv self im1 mk1 w1 t1 st).2
            = DisplayImpl_server st) as [Hok Hh1]
    by (by destruct im1, mk1).
  destruct (_mtv self im1 mk1 w1 t1 st) as [[[]|e] st1]; [|done].
  simpl in H1, Hh1. unfold display_state. f_equal.
  - transitivity (DisplayImpl_server st1); [by destruct mk2|].
    rewrite Hh1. by destruct mk2.
  - rewrite !servers_mtv, !servers_update_viewer, H1.
    rewrite ?servers_update_viewer, list_alter_alter_eq.
    apply list_alter_ext; [|done]. intros s _. simpl.
    unfold set_viewers; simpl. f_equal.
    rewrite alter_alter_eq. apply alter_ext. intros v _.
    unfold mtv_viewer, set_display, set_canvases; simpl.
    destruct im1; simpl; f_equal;
      rewrite list_alter_alter_eq; by apply list_alter_ext.
Qed.

(** X13: after an [_mtv] with an image, every display on the viewer
    shows that image, its array with the adaptor of the WCS given (none
    without a WCS); the images of the other viewers stay. *)
Theorem mtv_shows_image
    self (im : Image) (mk : option Image) (w : option Wcs) (title : string)
    d st :
  shown d (_mtv self (Some im) mk w title st).2
  = if decide (d = display self)
    then (λ _, {| data_np := getArray im;
                  wcs := (λ w, {| _wcs := w |}) <$> w |})
         <$> lookup_viewer d st
    else shown d st.
Proof.
  assert (lookup_viewer d (_mtv self (Some im) mk w title st).2
          = lookup_viewer d
              (update_viewer (display self) (mtv_viewer self (Some im) w)
                 st).2) as Hv.
  { unfold lookup_viewer. by rewrite servers_mtv. }
  unfold shown. rewrite Hv, lookup_viewer_update.
  destruct (decide (d = display self)) as [->|Hne].
  - rewrite decide_True by done.
    by destruct (lookup_viewer (display self) st).
  - by rewrite decide_False.
Qed.

(** ** Region commands: comments and malformed commands *)

Lemma split_on_comment sep (a b : string) :
  split_on sep a = [a] →
  ∃ ws, split_on sep (a ++ String sep b)%string = a :: ws.
Proof.
  induction a as [|c a IH]; intros Ha.
  - change (EmptyString ++ String sep b)%string with (String sep b).
    simpl. rewrite Ascii.eqb_refl. eauto.
  - change (String c a ++ String sep b)%string
      with (String c (a ++ String sep b)%string).
    simpl in *. destruct (Ascii.eqb c sep); [discriminate|].
    destruct (split_on_cons sep a) as (w & ws & Hw). rewrite Hw in Ha.
    injection Ha as -> ->.
    destruct (IH Hw) as (ws' & ->). eauto.
Qed.

(** X14: what follows the first [#] of a region command is ignored: a
    command with a comment added has the words of the command without
    it, leaves the process the same, and raises if and only if that
    one does; the colour of the object is [ctype], never the
    comment's. *)
Theorem region_comment_is_ignored
    self (symb : string) (ctype : pyval) (a b : string) st :
  split_on "#" a = [a] →
  command_words (a ++ String "#" b)%string = command_words a
  ∧ (dot_command self symb ctype (a ++ String "#" b)%string st).2
    = (dot_command self symb ctype a st).2
  ∧ raises (dot_command self symb ctype (a ++ String "#" b)%string st).1
    = raises (dot_command self symb ctype a st).1.
Proof.
  intros Ha.
  assert (command_words (a ++ String "#" b)%string = command_words a) as Hw.
  { unfold command_words. destruct (split_on_comment "#" a b Ha) as (ws & ->).
    by rewrite Ha. }
  split; [done|]. rewrite !dot_command_eq, Hw.
  destruct (command_words a) as [|cmd args]; [done|].
  destruct (String.eqb cmd "line"); [done|].
  by destruct (String.eqb cmd "text").
Qed.

Lemma floats_minus_1_Exists (args : list string) :
  Exists (λ p, float_of_str p = None) args →
  floats_minus_1 args = Raise ValueError.
Proof.
  induction 1 as [p args Hp|p args _ IH]; simpl; unfold float.
  - by rewrite Hp.
  - destruct (float_of_str p); [by rewrite IH|done].
Qed.

(** X15: a region command without words raises [IndexError]; a [line]
    with an argument that is no number, and a [text] with fewer than
    two arguments or with one of the first two no number, raise
    [ValueError]; in each case nothing is drawn for the command. *)
Theorem malformed_region_commands
    self (symb : string) (ctype : pyval) (ds9Cmd : string) st :
  (command_words ds9Cmd = [] →
   dot_command self symb ctype ds9Cmd st = (Raise IndexError, st))
  ∧ (∀ args,
       command_words ds9Cmd = "line" :: args →
       Exists (λ p, float_of_str p = None) args →
       dot_command self symb ctype ds9Cmd st = (Raise ValueError, st))
  ∧ (∀ args,
       command_words ds9Cmd = "text" :: args →
       length args < 2 ∨ Exists (λ p, float_of_str p = None) (take 2 args) →
       dot_command self symb ctype ds9Cmd st = (Raise ValueError, st)).
Proof.
  split; [|split].
  - intros Hw. by rewrite dot_command_eq, Hw.
  - intros args Hw Hbad. rewrite dot_command_eq, Hw. simpl.
    by rewrite floats_minus_1_Exists.
  - intros args Hw Hbad. rewrite dot_command_eq, Hw. simpl.
    destruct Hbad as [Hlen|Hbad]; [|by rewrite floats_minus_1_Exists].
    destruct args as [|p [|q args]]; simpl in *; [done| |lia].
    unfold float. by destruct (float_of_str p).
Qed.

(** ** [initGinga] with its global bound *)

(** X16: were the module's global [server] bound to [None], and the
    port asked for held by no running server, [initGinga] would return
    having made and started a server of its own, bound to that global;
    it leaves [DisplayImpl.server] alone, so the server of the
    displays, if any, keeps running beside it; and a further call
    would do nothing. *)
Theorem initGinga_with_global_bound
    (h h' : string) (p p' : Z) (cv cv' nio nio' : bool) st :
  globals st !! "server" = Some GNone →
  port_free p st →
  (initGinga h p cv nio st).1 = Ok tt
  ∧ globals (initGinga h p cv nio st).2 !! "server"
    = Some (GServer (length (servers st)))
  ∧ flags (initGinga h p cv nio st).2 = flags st ++ [true]
  ∧ DisplayImpl_server (initGinga h p cv nio st).2 = DisplayImpl_server st
  ∧ initGinga h' p' cv' nio' (initGinga h p cv nio st).2
    = (Ok tt, (initGinga h p cv nio st).2).
Proof.
  intros Hg _.
  assert (initGinga h p cv nio st
          = (Ok tt,
             {| globals := <["server" := GServer (length (servers st))]>
                             (globals st);
                DisplayImpl_server := DisplayImpl_server st;
                servers := servers st
                           ++ [{| host := h; port := p; use_opencv := cv;
                                  running := true; viewers := ∅ |}];
                stdout := stdout st; stderr := stderr st |})) as ->.
  { unfold initGinga. rewrite Hg. simpl.
    unfold bind, make_server, modify, server_start, update_server, modify,
      set_servers, set_globals; simpl.
    do 2 f_equal.
    rewrite <- (Nat.add_0_r (length (servers st))) at 1.
    by rewrite alter_app_r. }
  simpl. split; [done|]. split; [apply lookup_insert_eq|].
  split; [unfold flags; simpl; by rewrite fmap_app|].
  split; [done|].
  unfold initGinga; simpl. by rewrite lookup_insert_eq.
Qed.

End Further.

(** ** The further properties at work *)

Lemma calls_leave_other_canvases_witness :
  (display second_self, _canvas second_self)
  ≠ (display first_self, _canvas first_self)
  ∧ objects first_self
      (call (regions := example_regions) second_self Erase two_displays).2
    = Some [Line [1; 2; 3; 4]%Z (VStr "red")].
Proof.
  assert ((display second_self, _canvas second_self)
          ≠ (display first_self, _canvas first_self)) as Hne by discriminate.
  split; [exact Hne|].
  rewrite (calls_leave_other_canvases (regions := example_regions)
             second_self first_self Erase two_displays (or_intror Hne)).
  reflexivity.
Defined.

Lemma constructor_ignores_server_arguments_witness :
  DisplayImpl_server first_process = Some 0
  ∧ __init__ (VInt 3) false true "localhost" 9914%Z false true (VStr "png")
      first_process
    = __init__ (VInt 3) true true "elsewhere" 80%Z true false (VStr "png")
        first_process.
Proof.
  assert (DisplayImpl_server first_process = Some 0) as Hs by reflexivity.
  split; [exact Hs|].
  exact (constructor_ignores_server_arguments (VInt 3) false true true
           "localhost" "elsewhere" 9914%Z 80%Z false true true false
           (VStr "png") first_process 0 Hs).
Defined.

Lemma two_displays_on_one_frame_witness :
  wf (module_loaded (F := Z))
  ∧ ∃ inst st1 inst' st2,
      __init__ (VInt 0) false false "localhost" 9914%Z false true (VStr "jpeg")
        (module_loaded (F := Z)) = (Ok inst, st1)
      ∧ __init__ (VInt 0) false false "localhost" 9914%Z false true (VStr "png")
          st1 = (Ok inst', st2)
      ∧ display inst' = display inst
      ∧ _canvas inst' = S (_canvas inst)
      ∧ objects inst st2 = Some []
      ∧ objects inst' st2 = Some []
      ∧ canvas_count (display inst) st2
        = S (S (canvas_count (display inst) module_loaded)).
Proof.
  assert (wf (module_loaded (F := Z))) as Hwf by exact I.
  split; [exact Hwf|].
  exact (two_displays_on_one_frame (VInt 0) false false "localhost" 9914%Z
           false true (VStr "jpeg") false false "localhost" 9914%Z false true
           (VStr "png") module_loaded Hwf).
Defined.


Lemma construction_after_shutdown_witness :
  (0, "0").1 < length (servers first_process)
  ∧ ∃ inst st2,
      __init__ (VInt 0) false false "localhost" 9914%Z false true (VStr "jpeg")
        (shutdown_server drawn_process).2 = (Ok inst, st2)
      ∧ display inst = (1, "0")
      ∧ objects first_self st2 = Some [Line [1; 2; 3; 4]%Z (VStr "red")].
Proof.
  assert ((0, "0").1 < length (servers drawn_process)) as Hlt
    by (vm_compute; lia).
  split; [vm_compute; lia|].
  destruct (construction_after_shutdown (VInt 0) false false "localhost"
              9914%Z false true (VStr "jpeg") drawn_process)
    as (inst & st2 & Hinit & Hd & _ & _ & Hold).
  exists inst, st2. split; [exact Hinit|]. split; [exact Hd|].
  unfold objects, first_self. cbn [display _canvas].
  rewrite (Hold (0, "0") Hlt). reflexivity.
Defined.

Lemma region_comment_is_ignored_witness :
  split_on "#" "line 11 23 11 19" = ["line 11 23 11 19"]
  ∧ command_words "line 11 23 11 19# color=green"
    = ["line"; "11"; "23"; "11"; "19"].
Proof.
  assert (split_on "#" "line 11 23 11 19" = ["line 11 23 11 19"]) as Ha
    by reflexivity.
  split; [exact Ha|].
  destruct (region_comment_is_ignored first_self "+" (VStr "red")
              "line 11 23 11 19" " color=green" first_process Ha)
    as (Hw & _ & _).
  transitivity (command_words "line 11 23 11 19"); [exact Hw|reflexivity].
Defined.

Lemma malformed_region_commands_witness :
  command_words "# only a comment" = []
  ∧ dot_command first_self "+" (VStr "red") "# only a comment" first_process
    = (Raise IndexError, first_process)
  ∧ command_words "line 1 2 x 4" = ["line"; "1"; "2"; "x"; "4"]
  ∧ dot_command first_self "+" (VStr "red") "line 1 2 x 4" first_process
    = (Raise ValueError, first_process)
  ∧ command_words "text 5" = ["text"; "5"]
  ∧ dot_command first_self "t" (VStr "red") "text 5" first_process
    = (Raise ValueError, first_process).
Proof.
  assert (command_words "# only a comment" = []) as H0 by reflexivity.
  assert (command_words "line 1 2 x 4" = ["line"; "1"; "2"; "x"; "4"]) as H1
    by reflexivity.
  assert (command_words "text 5" = ["text"; "5"]) as H2 by reflexivity.
  split; [exact H0|].
  split.
  { destruct (malformed_region_commands first_self "+" (VStr "red")
                "# only a comment" first_process) as (He & _ & _).
    exact (He H0). }
  split; [exact H1|].
  split.
  { destruct (malformed_region_commands first_self "+" (VStr "red")
                "line 1 2 x 4" first_process) as (_ & Hl & _).
    apply (Hl _ H1).
    apply Exists_cons_tl, Exists_cons_tl, Exists_cons_hd. reflexivity. }
  split; [exact H2|].
  destruct (malformed_region_commands first_self "t" (VStr "red")
              "text 5" first_process) as (_ & _ & Ht).
  apply (Ht _ H2). left. simpl. lia.
Defined.

Lemma initGinga_with_global_bound_witness :
  globals server_bound !! "server" = Some GNone
  ∧ port_free 9915 server_bound
  ∧ (initGinga "localhost" 9915%Z false true server_bound).1 = Ok tt
  ∧ port <$> servers (initGinga "localhost" 9915%Z false true server_bound).2
    = [9914%Z; 9915%Z]
  ∧ flags (initGinga "localhost" 9915%Z false true server_bound).2
    = [true; true].
Proof.
  assert (globals server_bound !! "server" = Some GNone) as Hg
    by (vm_compute; reflexivity).
  assert (port_free 9915 server_bound) as Hfree.
  { unfold port_free.
    change (servers server_bound) with (servers first_process).
    assert (port <$> servers first_process = [9914%Z]) as Hports
      by (vm_compute; reflexivity).
    destruct (servers first_process) as [|s [|s' l]]; try discriminate.
    injection Hports as Hport.
    constructor; [|constructor]. intros _. rewrite Hport. discriminate. }
  destruct (initGinga_with_global_bound "localhost" "localhost" 9915%Z 9915%Z
              false false true true server_bound Hg Hfree)
    as (Hok & _ & Hfl & _ & _).
  split; [exact Hg|]. split; [exact Hfree|]. split; [exact Hok|].
  split; [vm_compute; reflexivity|].
  rewrite Hfl. reflexivity.
Defined.
